(** * PDF rasterizer and Bangla OCR pipeline: a shallow embedding

    The two scripts [extract_to_image.py] and [pdf_extractor.py] are sequences
    of calls into pdf2image, PIL, pytesseract and the operating system.  The
    embedding keeps the scripts' own control flow (the [try]/[except] blocks,
    the [enumerate] loops, the early returns) and takes the libraries as a
    record of oracles, [World]: what the decoder, the recogniser, the encoder
    and the operating system answer is a parameter, what the scripts do with
    the answers is modelled from the source. *)

From Stdlib Require Import ZArith QArith_base Ascii String List.
From stdpp Require Import base numbers list strings pretty gmap sorting.

Local Open Scope Z_scope.

(** ** Python values and strings *)

(** The values that travel in keyword dictionaries and in the record
    returned by [get_pdf_info].  [file_size_mb] is a float obtained by
    dividing a byte count by 2^20; it is kept as the exact quotient. *)
Inductive PyVal : Type :=
  | PyNone
  | PyBool (b : bool)
  | PyInt (n : Z)
  | PyFloat (q : Q)
  | PyStr (s : string)
  | PyPair (a b : Z).

(** An exception object: its class and what [str(e)] prints.  Only
    subclasses of [Exception] are modelled, the ones [except Exception]
    catches. *)
Record Exn : Type := mkExn { exn_class : string; exn_msg : string }.

Inductive Outcome (A : Type) : Type :=
  | Returns (a : A)
  | Raises (e : Exn).
Arguments Returns {A} a.
Arguments Raises {A} e.

Definition nl : string := String (ascii_of_nat 10) "".

Definition ascii_lower (c : ascii) : ascii :=
  let n := N_of_ascii c in
  if ((65 <=? n) && (n <=? 90))%N then ascii_of_N (n + 32) else c.

Definition ascii_upper (c : ascii) : ascii :=
  let n := N_of_ascii c in
  if ((97 <=? n) && (n <=? 122))%N then ascii_of_N (n - 32) else c.

Fixpoint map_string (f : ascii → ascii) (s : string) : string :=
  match s with
  | EmptyString => EmptyString
  | String c s' => String (f c) (map_string f s')
  end.

(** [str.lower] and [str.upper], on the ASCII letters. *)
Definition lower (s : string) : string := map_string ascii_lower s.
Definition upper (s : string) : string := map_string ascii_upper s.

Definition startswith (s p : string) : bool := String.prefix p s.
Definition endswith (s p : string) : bool :=
  String.prefix (String.rev p) (String.rev s).

(** [str.rfind] for a one-character needle: the last index, or -1. *)
Fixpoint rfind_go (c : ascii) (s : string) (i found : Z) : Z :=
  match s with
  | EmptyString => found
  | String a s' => rfind_go c s' (i + 1) (if Ascii.eqb a c then i else found)
  end.
Definition rfind (c : ascii) (s : string) : Z := rfind_go c s 0 (-1).

(** The slices [s[:k]] and [s[k:]] for [0 <= k]. *)
Definition str_take (k : Z) (s : string) : string :=
  String.substring 0 (Z.to_nat k) s.
Definition str_drop (k : Z) (s : string) : string :=
  String.substring (Z.to_nat k) (String.length s - Z.to_nat k) s.

(** [c in s] for a one-character [c]. *)
Fixpoint has_char (c : ascii) (s : string) : bool :=
  match s with
  | EmptyString => false
  | String a s' => Ascii.eqb a c || has_char c s'
  end.

(** ** [os.path] on POSIX *)

Definition os_path_join (a b : string) : string :=
  if startswith b "/" then b
  else if bool_decide (a = "") || endswith a "/" then a +:+ b
  else a +:+ "/" +:+ b.

Definition os_path_basename (p : string) : string :=
  str_drop (rfind "/" p + 1) p.

Fixpoint all_dots (s : string) : bool :=
  match s with
  | EmptyString => true
  | String c s' => Ascii.eqb c "." && all_dots s'
  end.

(** [os.path.splitext(p)[0]]: the part before the last dot of the last
    component, leading dots of that component not counting. *)
Definition splitext_root (p : string) : string :=
  let sepIndex := rfind "/" p in
  let dotIndex := rfind "." p in
  if (sepIndex <? dotIndex)
     && negb (all_dots (str_drop (sepIndex + 1) (str_take dotIndex p)))
  then str_take dotIndex p
  else p.

(** ** Python builtins on lists *)

Definition ValueError (msg : string) : Exn := mkExn "ValueError" msg.
Definition IndexError : Exn := mkExn "IndexError" "list index out of range".
Definition AttributeError (msg : string) : Exn := mkExn "AttributeError" msg.

Definition py_min (l : list Z) : Outcome Z :=
  match l with
  | [] => Raises (ValueError "min() arg is an empty sequence")
  | x :: l' => Returns (foldl Z.min x l')
  end.

Definition py_max (l : list Z) : Outcome Z :=
  match l with
  | [] => Raises (ValueError "max() arg is an empty sequence")
  | x :: l' => Returns (foldl Z.max x l')
  end.

Definition sorted (l : list Z) : list Z := merge_sort Z.le l.

(** [l[k]]: a negative index counts from the end, an index out of range
    raises. *)
Definition py_getitem {A : Type} (l : list A) (k : Z) : Outcome A :=
  let n := Z.of_nat (length l) in
  let k' := if k <? 0 then k + n else k in
  if k' <? 0 then Raises IndexError
  else match l !! Z.to_nat k' with
       | Some x => Returns x
       | None => Raises IndexError
       end.

(** ** Images *)

(** A PIL image: its pixel size, its mode and, for every pixel, the values
    of its bands. *)
Record Image : Type := mkImage {
  img_size : Z * Z;
  img_mode : string;
  img_data : list (list Z)
}.

(** [Image.point(lut, mode)]: every band value goes through [lut]. *)
Definition image_point (lut : Z → Z) (mode : string) (im : Image) : Image :=
  {| img_size := img_size im;
     img_mode := mode;
     img_data := map (map lut) (img_data im) |}.

(** The value of band [j] of pixel [i]. *)
Definition band_value (im : Image) (i j : nat) : option Z :=
  match img_data im !! i with
  | Some px => px !! j
  | None => None
  end.

(** The threshold of [extract_text_from_pdf]:
    [lambda x: 0 if x < 128 else 255]. *)
Definition threshold (x : Z) : Z := if x <? 128 then 0 else 255.

(** ** The machine: file system, console, decoder calls *)

Inductive Content : Type :=
  | ImageFile (im : Image) (format : string)
  | TextFile (text : string).

Record State : Type := mkState {
  dirs : gset string;
  files : gmap string Content;
  stdout : list string;
  decoded : list (string * gmap string PyVal)
}.

Definition with_dirs (d : gset string) (st : State) : State :=
  {| dirs := d; files := files st; stdout := stdout st; decoded := decoded st |}.
Definition with_files (f : gmap string Content) (st : State) : State :=
  {| dirs := dirs st; files := f; stdout := stdout st; decoded := decoded st |}.
Definition with_stdout (o : list string) (st : State) : State :=
  {| dirs := dirs st; files := files st; stdout := o; decoded := decoded st |}.
Definition with_decoded (c : list (string * gmap string PyVal)) (st : State)
    : State :=
  {| dirs := dirs st; files := files st; stdout := stdout st; decoded := c |}.

(** The libraries and the operating system, as the scripts see them.  The
    sources are read-only inputs: what a path or a byte buffer decodes to,
    what the input directory lists and how large a source is do not change
    while a script runs.  Whether creating a directory or writing a file
    fails may depend on the state reached. *)
Record World : Type := mkWorld {
  (* pdf2image.convert_from_path(pdf_path, **kwargs) *)
  convert_from_path : string → gmap string PyVal → Outcome (list Image);
  (* pdf2image.convert_from_bytes(pdf_bytes, **kwargs) *)
  convert_from_bytes : string → gmap string PyVal → Outcome (list Image);
  (* Image.convert(mode) *)
  image_convert : Image → string → Outcome Image;
  (* pytesseract.image_to_string(image, lang=...) *)
  image_to_string : Image → string → Outcome string;
  (* os.path.exists, os.listdir, os.path.getsize *)
  os_path_exists : string → bool;
  os_listdir : string → Outcome (list string);
  os_path_getsize : string → Outcome Z;
  (* the error, if any, of os.makedirs(name, exist_ok=True) *)
  makedirs_error : State → string → option Exn;
  (* the error, if any, of image.save(filepath, format=...) *)
  save_error : State → Image → string → string → option Exn;
  (* the error, if any, of open(path, 'w') followed by write(text) *)
  write_error : State → string → string → option Exn
}.

(** Computations: they read and change the state, and return or raise. *)
Definition M (A : Type) : Type := State → Outcome A * State.

Definition ret {A : Type} (a : A) : M A := λ st, (Returns a, st).
Definition raise {A : Type} (e : Exn) : M A := λ st, (Raises e, st).
Definition lift {A : Type} (o : Outcome A) : M A := λ st, (o, st).

Definition bind {A B : Type} (m : M A) (k : A → M B) : M B :=
  λ st, match m st with
        | (Returns a, st') => k a st'
        | (Raises e, st') => (Raises e, st')
        end.

(** [try: body except Exception as e: handler e]. *)
Definition try_except {A : Type} (body : M A) (handler : Exn → M A) : M A :=
  λ st, match body st with
        | (Returns a, st') => (Returns a, st')
        | (Raises e, st') => handler e st'
        end.

Notation "x <~ m ;; k" := (bind m (λ x, k))
  (at level 100, m at next level, right associativity,
   format "'[v' x  <~  m  ;;  '/' k ']'").
Notation "m ;;; k" := (bind m (λ _, k))
  (at level 100, right associativity,
   format "'[v' m  ;;;  '/' k ']'").

Definition print (line : string) : M unit :=
  λ st, (Returns tt, with_stdout (stdout st ++ [line]) st).

(** ** Library calls with an effect *)

Section Calls.
Context (W : World).

(** [os.makedirs(name, exist_ok=True)]. *)
Definition os_makedirs (name : string) : M unit :=
  λ st, match makedirs_error W st name with
        | Some e => (Raises e, st)
        | None => (Returns tt, with_dirs ({[name]} ∪ dirs st) st)
        end.

(** [image.save(filepath, format=format)]. *)
Definition image_save (image : Image) (filepath format : string) : M unit :=
  λ st, match save_error W st image filepath format with
        | Some e => (Raises e, st)
        | None =>
            (Returns tt,
             with_files (<[filepath := ImageFile image format]> (files st)) st)
        end.

(** [with open(path, 'w', encoding='utf-8') as f: f.write(text)]. *)
Definition write_text (path text : string) : M unit :=
  λ st, match write_error W st path text with
        | Some e => (Raises e, st)
        | None =>
            (Returns tt, with_files (<[path := TextFile text]> (files st)) st)
        end.

(** A call of the decoder on a path; the call is recorded. *)
Definition decode_path (pdf_path : string) (kwargs : gmap string PyVal)
    : M (list Image) :=
  λ st, (convert_from_path W pdf_path kwargs,
         with_decoded (decoded st ++ [(pdf_path, kwargs)]) st).

Definition decode_bytes (pdf_bytes : string) (kwargs : gmap string PyVal)
    : M (list Image) :=
  λ st, (convert_from_bytes W pdf_bytes kwargs, st).

End Calls.

(** ** extract_to_image.py *)

Section Rasterizer.
Context (W : World).

(** [f"page_{n}.{format.lower()}"] joined to the output directory. *)
Definition page_filename {N : Type} `{Pretty N} (n : N) (format : string)
    : string :=
  "page_" +:+ pretty n +:+ "." +:+ lower format.

Definition page_path {N : Type} `{Pretty N} (output_dir format : string)
    (n : N) : string :=
  os_path_join output_dir (page_filename n format).

(** The loop [for i, image in enumerate(images)] shared, word for word, by
    [convert_pdf_to_images], [convert_pdf_bytes_to_images] and
    [convert_with_custom_settings]; [i] is the index reached and
    [image_paths] the list built so far. *)
Fixpoint save_pages (output_dir format : string) (i : nat)
    (images : list Image) (image_paths : list string) : M (list string) :=
  match images with
  | [] => ret image_paths
  | image :: rest =>
      let filepath := page_path output_dir format (i + 1)%nat in
      image_save W image filepath (upper format) ;;;
      print ("Saved page " +:+ pretty (i + 1)%nat +:+ ": " +:+ filepath) ;;;
      save_pages output_dir format (S i) rest (image_paths ++ [filepath])
  end.

Definition convert_pdf_to_images (pdf_path output_dir : string) (dpi : Z)
    (format : string) : M (list string) :=
  os_makedirs W output_dir ;;;
  try_except
    (images <~ decode_path W pdf_path {[ "dpi" := PyInt dpi ]} ;;
     save_pages output_dir format 0 images [])
    (λ e,
       print ("Error converting PDF to images: " +:+ exn_msg e) ;;;
       ret []).

Definition convert_pdf_bytes_to_images (pdf_bytes output_dir : string)
    (dpi : Z) (format : string) : M (list string) :=
  os_makedirs W output_dir ;;;
  try_except
    (images <~ decode_bytes W pdf_bytes {[ "dpi" := PyInt dpi ]} ;;
     save_pages output_dir format 0 images [])
    (λ e,
       print ("Error converting PDF bytes to images: " +:+ exn_msg e) ;;;
       ret []).

(** The loop [for i, page_num in enumerate(sorted(pages))] of
    [convert_specific_pages]. *)
Fixpoint save_requested (pages : list Z) (output_dir format : string)
    (images : list Image) (i : nat) (todo : list Z)
    (image_paths : list string) : M (list string) :=
  match todo with
  | [] => ret image_paths
  | page_num :: rest =>
      if bool_decide (i < length images)%nat then
        lo <~ lift (py_min pages) ;;
        image <~ lift (py_getitem images (page_num - lo)) ;;
        let filepath := page_path output_dir format page_num in
        image_save W image filepath (upper format) ;;;
        print ("Saved page " +:+ pretty page_num +:+ ": " +:+ filepath) ;;;
        save_requested pages output_dir format images (S i) rest
          (image_paths ++ [filepath])
      else
        save_requested pages output_dir format images (S i) rest image_paths
  end.

Definition page_range_kwargs (dpi first_page last_page : Z)
    : gmap string PyVal :=
  {[ "dpi" := PyInt dpi;
     "first_page" := PyInt first_page;
     "last_page" := PyInt last_page ]}.

Definition convert_specific_pages (pdf_path : string) (pages : list Z)
    (output_dir : string) (dpi : Z) (format : string) : M (list string) :=
  os_makedirs W output_dir ;;;
  try_except
    (lo <~ lift (py_min pages) ;;
     hi <~ lift (py_max pages) ;;
     images <~ decode_path W pdf_path (page_range_kwargs dpi lo hi) ;;
     save_requested pages output_dir format images 0 (sorted pages) [])
    (λ e,
       print ("Error converting specific pages: " +:+ exn_msg e) ;;;
       ret []).

(** The defaults of [convert_with_custom_settings]. *)
Definition default_settings : gmap string PyVal :=
  {[ "dpi" := PyInt 200;
     "format" := PyStr "PNG";
     "thread_count" := PyInt 1;
     "use_cropbox" := PyBool false;
     "strict" := PyBool false ]}.

(** The loop of [convert_with_custom_settings]: [output_format] comes out
    of a dictionary, and [.lower()] is looked up on it once per page. *)
Definition save_pages_as (output_dir : string) (output_format : PyVal)
    (images : list Image) : M (list string) :=
  match images, output_format with
  | [], _ => ret []
  | _ :: _, PyStr format => save_pages output_dir format 0 images []
  | _ :: _, _ => raise (AttributeError "object has no attribute 'lower'")
  end.

Definition convert_with_custom_settings (pdf_path output_dir : string)
    (kwargs : gmap string PyVal) : M (list string) :=
  (* settings.update(kwargs): the caller's entries win *)
  let settings := kwargs ∪ default_settings in
  (* settings.pop('format') *)
  let output_format := default PyNone (settings !! "format") in
  let settings := delete "format" settings in
  os_makedirs W output_dir ;;;
  try_except
    (images <~ decode_path W pdf_path settings ;;
     save_pages_as output_dir output_format images)
    (λ e,
       print ("Error converting with custom settings: " +:+ exn_msg e) ;;;
       ret []).

(** [get_pdf_info]; the record is a dictionary with string keys. *)
Definition get_pdf_info (pdf_path : string) : M (gmap string PyVal) :=
  try_except
    (images <~ decode_path W pdf_path {[ "dpi" := PyInt 50 ]} ;;
     size <~ lift (os_path_getsize W pdf_path) ;;
     let info : gmap string PyVal :=
       {[ "page_count" := PyInt (Z.of_nat (length images));
          "file_size_mb" := PyFloat (Qmake size (1024 * 1024));
          "filename" := PyStr (os_path_basename pdf_path) ]} in
     match images with
     | first_page :: _ =>
         ret (<["page_mode" := PyStr (img_mode first_page)]>
                (<["page_dimensions" :=
                     PyPair (fst (img_size first_page))
                            (snd (img_size first_page))]> info))
     | [] => ret info
     end)
    (λ e,
       print ("Error getting PDF info: " +:+ exn_msg e) ;;;
       ret ∅).

(** The script body under [if __name__ == "__main__"]: the conversion of
    [files/1.pdf] with the default output directory, inside a [try] of its
    own. *)
Definition example_usage : M unit :=
  let pdf_file := "files/1.pdf" in
  try_except
    (print "Converting PDF to images..." ;;;
     image_files <~ convert_pdf_to_images pdf_file "pdf_images" 300 "PNG" ;;
     print ("Converted " +:+ pretty (length image_files)
            +:+ " pages to images"))
    (λ e,
       print ("Error: " +:+ exn_msg e) ;;;
       print "Make sure you have pdf2image installed: pip install pdf2image" ;;;
       print "Also ensure poppler is installed on your system:").

End Rasterizer.

(** ** pdf_extractor.py *)

Section Extractor.
Context (W : World).

(** Lines 20 to 26: grayscale, threshold, recognise. *)
Definition binarize (image : Image) : Outcome Image :=
  match image_convert W image "L" with
  | Returns gray => Returns (image_point threshold "1" gray)
  | Raises e => Raises e
  end.

Definition recognise (image : Image) : Outcome string :=
  match binarize image with
  | Returns bw => image_to_string W bw "ben"
  | Raises e => Raises e
  end.

(** [f"Page {i+1}:\n{text}\n\n"]. *)
Definition page_section (i : nat) (text : string) : string :=
  "Page " +:+ pretty (i + 1)%nat +:+ ":" +:+ nl +:+ text +:+ nl +:+ nl.

(** [''.join(all_text)]. *)
Definition join_all (all_text : list string) : string :=
  foldr String.append "" all_text.

(** The loop [for i, image in enumerate(images)]. *)
Fixpoint ocr_pages (i : nat) (images : list Image) (all_text : list string)
    : M (list string) :=
  match images with
  | [] => ret all_text
  | image :: rest =>
      print ("Processing page " +:+ pretty (i + 1)%nat +:+ "...") ;;;
      text <~ lift (recognise image) ;;
      ocr_pages (S i) rest (all_text ++ [page_section i text])
  end.

Definition extract_text_from_pdf (pdf_path : string) : M string :=
  try_except
    (images <~ decode_path W pdf_path ∅ ;;
     all_text <~ ocr_pages 0 images [] ;;
     ret (join_all all_text))
    (λ e,
       print ("Error: " +:+ exn_msg e) ;;;
       ret "").

Definition files_dir : string := "files".

Definition is_pdf (f : string) : bool := endswith (lower f) ".pdf".

Definition output_path (pdf_file : string) : string :=
  "extracted_text/" +:+ splitext_root pdf_file +:+ "_extracted.txt".

(** The body of [for pdf_file in pdf_files]. *)
Definition process_file (pdf_file : string) : M unit :=
  let pdf_path := os_path_join files_dir pdf_file in
  print (nl +:+ "Processing file: " +:+ pdf_file) ;;;
  print "Extracting text from PDF..." ;;;
  extracted_text <~ extract_text_from_pdf pdf_path ;;
  write_text W (output_path pdf_file) extracted_text ;;;
  print ("Text extracted and saved to: " +:+ output_path pdf_file).

Fixpoint process_files (pdf_files : list string) : M unit :=
  match pdf_files with
  | [] => ret tt
  | pdf_file :: rest => process_file pdf_file ;;; process_files rest
  end.

Definition main : M unit :=
  if negb (os_path_exists W files_dir) then
    print ("Directory '" +:+ files_dir +:+ "' not found!")
  else
    names <~ lift (os_listdir W files_dir) ;;
    let pdf_files := filter (λ f, is_pdf f = true) names in
    match pdf_files with
    | [] => print "No PDF files found in the directory!"
    | _ :: _ =>
        process_files pdf_files ;;;
        print "All files processed."
    end.

End Extractor.

(** ** Notions used in the statements *)

(** A computation that may create directories but never removes one. *)
Definition keeps_dirs {A : Type} (m : M A) : Prop :=
  ∀ st r st', m st = (r, st') → dirs st ⊆ dirs st'.

(** A computation that leaves the files and directories as they are. *)
Definition reads_only {A : Type} (m : M A) : Prop :=
  ∀ st r st', m st = (r, st') → dirs st' = dirs st ∧ files st' = files st.

(** A source the decoder cannot read: whatever the settings, it raises. *)
Definition unreadable (W : World) (source : string) : Prop :=
  ∀ kwargs, ∃ e, convert_from_path W source kwargs = Raises e.

Definition unreadable_bytes (W : World) (source : string) : Prop :=
  ∀ kwargs, ∃ e, convert_from_bytes W source kwargs = Raises e.

(** A page on which grayscale conversion or recognition raises. *)
Definition page_fails (W : World) (image : Image) : Prop :=
  ∃ e, recognise W image = Raises e.

(** ** A concrete world to run the scripts in

    Three documents, an encoder that knows three formats, a recogniser that
    reports how much ink it saw and gives up on an image without pixels, and
    an operating system that refuses to make a directory where a regular
    file stands and to write into a directory that is not there. *)

Module Demo.

Definition gray_image (w h : Z) (values : list Z) : Image :=
  {| img_size := (w, h); img_mode := "L"; img_data := map (λ v, [v]) values |}.

Definition page_a : Image := gray_image 2 2 [0; 127; 128; 255].
Definition page_b : Image := gray_image 2 1 [10; 200].
Definition page_c : Image := gray_image 1 1 [90].
Definition blank_page : Image := gray_image 0 0 [].

(** The pages of each source, or [None] for a source that does not decode
    (no such file, or not a PDF). *)
Definition pages_of (source : string) : option (list Image) :=
  if bool_decide (source = "doc.pdf") then Some [page_a; page_b; page_c]
  else if bool_decide (source = "files/a.pdf") then Some [page_a; page_b]
  else if bool_decide (source = "files/torn.pdf")
       then Some [page_a; blank_page; page_c]
  else if bool_decide (source = "empty.pdf") then Some []
  else None.

Definition int_kwarg (kwargs : gmap string PyVal) (key : string) (d : Z) : Z :=
  match kwargs !! key with
  | Some (PyInt n) => n
  | _ => d
  end.

(** The decoder keeps the pages [first_page .. last_page], both clipped to
    the document. *)
Definition decoder (source : string) (kwargs : gmap string PyVal)
    : Outcome (list Image) :=
  match pages_of source with
  | None => Raises (mkExn "PDFPageCountError" "Unable to get page count.")
  | Some pages =>
      let count := Z.of_nat (length pages) in
      let first := Z.max 1 (int_kwarg kwargs "first_page" 1) in
      let last := Z.min count (int_kwarg kwargs "last_page" count) in
      Returns (take (Z.to_nat (last - first + 1))
                 (drop (Z.to_nat (first - 1)) pages))
  end.

(** ITU-R 601-2 luma in PIL's integer arithmetic. *)
Definition luma (px : list Z) : Z :=
  match px with
  | [r; g; b] => Z.shiftr (r * 19595 + g * 38470 + b * 7471 + 32768) 16
  | v :: _ => v
  | [] => 0
  end.

Definition to_mode (im : Image) (mode : string) : Outcome Image :=
  Returns {| img_size := img_size im; img_mode := mode;
             img_data := map (λ px, [luma px]) (img_data im) |}.

Definition ink (im : Image) : nat :=
  length (filter (λ px, px = [0]) (img_data im)).

Definition ocr (im : Image) (lang : string) : Outcome string :=
  match img_data im with
  | [] => Raises (mkExn "TesseractError" "Image too small to scale")
  | _ :: _ => Returns ("ink " +:+ pretty (ink im))
  end.

Definition listing (d : string) : Outcome (list string) :=
  if bool_decide (d = "files") then Returns ["a.pdf"; "notes.txt"; "torn.pdf"]
  else Raises (mkExn "FileNotFoundError" "No such file or directory").

Definition size_of (p : string) : Outcome Z :=
  match pages_of p with
  | Some _ => Returns 524288
  | None => Raises (mkExn "FileNotFoundError" "No such file or directory")
  end.

Definition mkdir_check (st : State) (name : string) : option Exn :=
  if bool_decide (name ∈ dom (files st))
  then Some (mkExn "FileExistsError" "File exists")
  else None.

Definition encoder_check (st : State) (im : Image) (filepath format : string)
    : option Exn :=
  if bool_decide (format ∈ ["PNG"; "JPEG"; "TIFF"]) then None
  else Some (mkExn "KeyError" format).

Definition open_check (st : State) (path text : string) : option Exn :=
  if bool_decide ("extracted_text" ∈ dirs st) then None
  else Some (mkExn "FileNotFoundError" "No such file or directory").

Definition world : World :=
  {| convert_from_path := decoder;
     convert_from_bytes := decoder;
     image_convert := to_mode;
     image_to_string := ocr;
     os_path_exists := λ p, bool_decide (p = "files");
     os_listdir := listing;
     os_path_getsize := size_of;
     makedirs_error := mkdir_check;
     save_error := encoder_check;
     write_error := open_check |}.

(** A fresh disk, a disk with the output directory of the batch driver, and
    a disk where [pdf_images] is a regular file. *)
Definition fresh : State :=
  {| dirs := ∅; files := ∅; stdout := []; decoded := [] |}.
Definition ready : State :=
  {| dirs := {[ "extracted_text" ]}; files := ∅; stdout := []; decoded := [] |}.
Definition blocked : State :=
  {| dirs := ∅; files := {[ "pdf_images" := TextFile "" ]};
     stdout := []; decoded := [] |}.

End Demo.

(** ** A second world: a picky encoder and two names for one output

    The encoder refuses an image without pixels; the input directory holds
    [scan.PDF] and [scan.pdf], which share the output name
    [scan_extracted.txt], and [files/1.pdf], the input of the example
    script, has two pages. *)

Module Picky.

Definition pages_of (source : string) : option (list Image) :=
  if bool_decide (source = "doc.pdf")
  then Some [Demo.page_a; Demo.blank_page; Demo.page_c]
  else if bool_decide (source = "files/scan.PDF") then Some [Demo.page_c]
  else if bool_decide (source = "files/scan.pdf")
       then Some [Demo.page_a; Demo.page_b]
  else if bool_decide (source = "files/1.pdf")
       then Some [Demo.page_a; Demo.page_b]
  else None.

Definition decoder (source : string) (kwargs : gmap string PyVal)
    : Outcome (list Image) :=
  match pages_of source with
  | None => Raises (mkExn "PDFPageCountError" "Unable to get page count.")
  | Some pages => Returns pages
  end.

Definition encoder_check (st : State) (im : Image) (filepath format : string)
    : option Exn :=
  match img_data im with
  | [] => Some (mkExn "SystemError" "tile cannot extend outside image")
  | _ :: _ => None
  end.

Definition listing (d : string) : Outcome (list string) :=
  if bool_decide (d = "files")
  then Returns ["scan.PDF"; "readme.md"; "scan.pdf"]
  else Raises (mkExn "FileNotFoundError" "No such file or directory").

Definition world : World :=
  {| convert_from_path := decoder;
     convert_from_bytes := decoder;
     image_convert := Demo.to_mode;
     image_to_string := Demo.ocr;
     os_path_exists := λ p, bool_decide (p = "files");
     os_listdir := listing;
     os_path_getsize := λ _, Returns 2097152;
     makedirs_error := Demo.mkdir_check;
     save_error := encoder_check;
     write_error := Demo.open_check |}.

(** The same world without an input directory. *)
Definition bare : World :=
  {| convert_from_path := decoder;
     convert_from_bytes := decoder;
     image_convert := Demo.to_mode;
     image_to_string := Demo.ocr;
     os_path_exists := λ _, false;
     os_listdir :=
       λ _, Raises (mkExn "FileNotFoundError" "No such file or directory");
     os_path_getsize := λ _, Returns 2097152;
     makedirs_error := Demo.mkdir_check;
     save_error := encoder_check;
     write_error := Demo.open_check |}.

(** A disk that already holds an output of an earlier run. *)
Definition stale : State :=
  {| dirs := {[ "extracted_text" ]};
     files := {[ "extracted_text/scan_extracted.txt" := TextFile "old" ]};
     stdout := []; decoded := [] |}.

End Picky.

(** * Properties *)

(** ** Strings and page names *)

(** The path helpers on the names the scripts build. *)
Example os_path_join_cases :
  os_path_join "pdf_images" "page_1.png" = "pdf_images/page_1.png"
  ∧ os_path_join "out/" "page_1.png" = "out/page_1.png"
  ∧ os_path_join "" "page_1.png" = "page_1.png"
  ∧ os_path_join "files" "/tmp/x.pdf" = "/tmp/x.pdf".
Proof. repeat split; reflexivity. Qed.

Example output_path_cases :
  output_path "scan.pdf" = "extracted_text/scan_extracted.txt"
  ∧ output_path "scan.v2.PDF" = "extracted_text/scan.v2_extracted.txt"
  ∧ output_path ".pdf" = "extracted_text/.pdf_extracted.txt"
  ∧ os_path_basename "files/1.pdf" = "1.pdf".
Proof. repeat split; reflexivity. Qed.

Example is_pdf_cases :
  is_pdf "scan.pdf" = true ∧ is_pdf "SCAN.PDF" = true
  ∧ is_pdf "notes.txt" = false ∧ is_pdf "pdf" = false.
Proof. repeat split; reflexivity. Qed.

Example page_filename_cases :
  page_filename 12%nat "JPEG" = "page_12.jpeg"
  ∧ page_filename 7 "Png" = "page_7.png"
  ∧ upper "Png" = "PNG".
Proof. repeat split; reflexivity. Qed.

Lemma length_append (s t : string) :
  String.length (s +:+ t) = (String.length s + String.length t)%nat.
Proof. induction s as [|c s IH]; simpl; [done | by rewrite IH]. Qed.

Lemma append_cancel_r (s1 s2 t : string) : s1 +:+ t = s2 +:+ t → s1 = s2.
Proof.
  revert s2. induction s1 as [|c s1 IH]; intros [|d s2] Heq; simpl in *.
  - done.
  - apply (f_equal String.length) in Heq.
    rewrite !length_append in Heq. simpl in Heq. lia.
  - apply (f_equal String.length) in Heq.
    rewrite !length_append in Heq. simpl in Heq. lia.
  - injection Heq as -> Heq. f_equal. by apply IH.
Qed.

Section PageNames.
Context {N : Type} `{Pretty N} `{!Inj (=) (=) (pretty (A := N))}.

Lemma page_filename_inj (format : string) (n m : N) :
  page_filename n format = page_filename m format → n = m.
Proof.
  unfold page_filename. intros Heq.
  apply (inj (String.append "page_")) in Heq.
  apply append_cancel_r in Heq. by apply (inj pretty).
Qed.

Lemma page_path_inj (output_dir format : string) (n m : N) :
  page_path output_dir format n = page_path output_dir format m → n = m.
Proof.
  unfold page_path, os_path_join, page_filename. simpl.
  destruct (bool_decide (output_dir = "") || endswith output_dir "/");
    intros Heq; apply (inj (String.append output_dir)) in Heq;
    [| apply (inj (String.append "/")) in Heq ];
    apply (page_filename_inj format); exact Heq.
Qed.

End PageNames.

(** ** Running computations *)

Lemma try_returns {A : Type} (m : M A) (h : Exn → M A) st a st' :
  m st = (Returns a, st') → try_except m h st = (Returns a, st').
Proof. unfold try_except. by intros ->. Qed.

Lemma try_raises {A : Type} (m : M A) (h : Exn → M A) st e st' :
  m st = (Raises e, st') → try_except m h st = h e st'.
Proof. unfold try_except. by intros ->. Qed.

Lemma bind_ext {A B : Type} (m : M A) (k k' : A → M B) st :
  (∀ a st1, k a st1 = k' a st1) → bind m k st = bind m k' st.
Proof. intros Hk. unfold bind. by destruct (m st) as [[a|e] st1]. Qed.

Lemma try_ext {A : Type} (m m' : M A) (h : Exn → M A) st :
  (∀ st1, m st1 = m' st1) → try_except m h st = try_except m' h st.
Proof. intros Hm. unfold try_except. by rewrite Hm. Qed.

Lemma keeps_dirs_bind {A B : Type} (m : M A) (k : A → M B) :
  keeps_dirs m → (∀ a, keeps_dirs (k a)) → keeps_dirs (bind m k).
Proof.
  intros Hm Hk st r st'. unfold bind.
  destruct (m st) as [[a|e] st1] eqn:E; intros Hr.
  - apply Hm in E. apply Hk in Hr. set_solver.
  - injection Hr as <- <-. by apply Hm in E.
Qed.

Lemma keeps_dirs_try {A : Type} (m : M A) (h : Exn → M A) :
  keeps_dirs m → (∀ e, keeps_dirs (h e)) → keeps_dirs (try_except m h).
Proof.
  intros Hm Hh st r st'. unfold try_except.
  destruct (m st) as [[a|e] st1] eqn:E; intros Hr.
  - injection Hr as <- <-. by apply Hm in E.
  - apply Hm in E. apply Hh in Hr. set_solver.
Qed.

Lemma reads_only_bind {A B : Type} (m : M A) (k : A → M B) :
  reads_only m → (∀ a, reads_only (k a)) → reads_only (bind m k).
Proof.
  intros Hm Hk st r st'. unfold bind.
  destruct (m st) as [[a|e] st1] eqn:E; intros Hr.
  - apply Hm in E as [E1 E2]. apply Hk in Hr as [-> ->]. done.
  - injection Hr as <- <-. by apply Hm in E.
Qed.

Lemma reads_only_try {A : Type} (m : M A) (h : Exn → M A) :
  reads_only m → (∀ e, reads_only (h e)) → reads_only (try_except m h).
Proof.
  intros Hm Hh st r st'. unfold try_except.
  destruct (m st) as [[a|e] st1] eqn:E; intros Hr.
  - injection Hr as <- <-. by apply Hm in E.
  - apply Hm in E as [E1 E2]. apply Hh in Hr as [-> ->]. done.
Qed.

Lemma reads_only_keeps_dirs {A : Type} (m : M A) :
  reads_only m → keeps_dirs m.
Proof. intros Hm st r st' E. apply Hm in E as [-> _]. done. Qed.

Lemma reads_only_ret {A : Type} (a : A) : reads_only (ret a).
Proof. intros st r st'. unfold ret. by intros [= <- <-]. Qed.

Lemma reads_only_raise {A : Type} (e : Exn) : reads_only (raise (A := A) e).
Proof. intros st r st'. unfold raise. by intros [= <- <-]. Qed.

Lemma reads_only_lift {A : Type} (o : Outcome A) : reads_only (lift o).
Proof. intros st r st'. unfold lift. by intros [= <- <-]. Qed.

Lemma reads_only_print (line : string) : reads_only (print line).
Proof. intros st r st'. unfold print. by intros [= <- <-]. Qed.

Lemma reads_only_decode_path W p kw : reads_only (decode_path W p kw).
Proof. intros st r st'. unfold decode_path. by intros [= <- <-]. Qed.

Lemma reads_only_decode_bytes W b kw : reads_only (decode_bytes W b kw).
Proof. intros st r st'. unfold decode_bytes. by intros [= <- <-]. Qed.

Lemma keeps_dirs_image_save W im p f : keeps_dirs (image_save W im p f).
Proof.
  intros st r st'. unfold image_save.
  destruct (save_error W st im p f); intros [= <- <-]; simpl; set_solver.
Qed.

Lemma keeps_dirs_makedirs W d : keeps_dirs (os_makedirs W d).
Proof.
  intros st r st'. unfold os_makedirs.
  destruct (makedirs_error W st d); intros [= <- <-]; simpl; set_solver.
Qed.

Lemma makedirs_returns W d st st' :
  os_makedirs W d st = (Returns tt, st') → d ∈ dirs st'.
Proof.
  unfold os_makedirs.
  destruct (makedirs_error W st d); intros [= <-]; simpl; set_solver.
Qed.

Create HintDb effects.

#[local] Hint Resolve reads_only_keeps_dirs reads_only_ret reads_only_raise
  reads_only_lift reads_only_print reads_only_decode_path
  reads_only_decode_bytes keeps_dirs_image_save keeps_dirs_makedirs
  : effects.

(** ** The page loop of the three whole-document conversions *)

Section SavePages.
Context (W : World).

Lemma keeps_dirs_save_pages out fmt images :
  ∀ i acc, keeps_dirs (save_pages W out fmt i images acc).
Proof.
  induction images as [|im rest IH]; intros i acc; simpl.
  - auto with effects.
  - apply keeps_dirs_bind; [auto with effects | intros _].
    apply keeps_dirs_bind; [auto with effects | intros _]. apply IH.
Qed.

(** When the encoder accepts every page, the loop saves page [i + 1 + k]
    for the [k]-th image, changes no other file, and returns the paths in
    that order. *)
Lemma save_pages_ok out fmt images :
  (∀ st im p, out ∈ dirs st → save_error W st im p (upper fmt) = None) →
  ∀ i acc st, out ∈ dirs st → ∃ st',
    save_pages W out fmt i images acc st
      = (Returns (acc ++ map (page_path out fmt) (seq (S i) (length images))),
         st')
    ∧ dirs st' = dirs st
    ∧ decoded st' = decoded st
    ∧ (∀ k im, images !! k = Some im →
         files st' !! page_path out fmt (S (i + k))
           = Some (ImageFile im (upper fmt)))
    ∧ (∀ p, (∀ k, (k < length images)%nat →
               p ≠ page_path out fmt (S (i + k))) →
         files st' !! p = files st !! p).
Proof.
  intros Hsave. induction images as [|im rest IH]; intros i acc st Hout.
  - exists st. simpl. rewrite app_nil_r.
    split; [done|]. split; [done|]. split; [done|]. split; [|done].
    intros k im' Hk. by rewrite lookup_nil in Hk.
  - simpl. unfold bind at 1, image_save at 1. rewrite Hsave by done.
    unfold bind at 1, print at 1. rewrite Nat.add_1_r.
    set (fp := page_path out fmt (S i)).
    set (st2 := with_stdout _ _).
    destruct (IH (S i) (acc ++ [fp]) st2 Hout)
      as (st' & Hrun & Hd & Hc & Ha & Hb).
    exists st'. rewrite Hrun, <- app_assoc. simpl.
    split; [done|]. split; [by rewrite Hd|]. split; [by rewrite Hc|].
    split.
    + intros [|k] im' Hk; simpl in Hk.
      * injection Hk as <-. rewrite Nat.add_0_r, Hb.
        { subst st2 fp. simpl. by rewrite lookup_insert_eq. }
        intros k _ Heq. apply page_path_inj in Heq. lia.
      * replace (S (i + S k)) with (S (S i + k)) by lia. by apply Ha.
    + intros p Hp. rewrite Hb.
      * subst st2. simpl. rewrite lookup_insert_ne; [done|].
        intros <-. apply (Hp 0%nat); [lia|]. by rewrite Nat.add_0_r.
      * intros k Hk. replace (S (S i + k)) with (S (i + S k)) by lia.
        apply Hp. lia.
Qed.

Lemma NoDup_page_paths out fmt i n :
  NoDup (map (page_path out fmt) (seq i n)).
Proof.
  apply NoDup_fmap_2; [|apply NoDup_seq].
  intros a b. apply page_path_inj.
Qed.

(** C1. For a PDF that decodes to N pages, into a directory that can be
    made and with a format the encoder accepts, [convert_pdf_to_images]
    returns the N paths [page_1.ext] .. [page_N.ext] under the output
    directory, in page order, with [ext] the requested format in lower
    case; the paths are pairwise different, the file at the k-th path holds
    the k-th page, and no other file is written. *)
Theorem convert_pdf_to_images_pages (pdf_path output_dir : string) (dpi : Z)
    (format : string) (images : list Image) (st : State) :
  makedirs_error W st output_dir = None →
  convert_from_path W pdf_path {[ "dpi" := PyInt dpi ]} = Returns images →
  (∀ st' im p, output_dir ∈ dirs st' →
     save_error W st' im p (upper format) = None) →
  ∃ st',
    convert_pdf_to_images W pdf_path output_dir dpi format st
      = (Returns
           (map (λ n : nat,
                   os_path_join output_dir
                     ("page_" +:+ pretty n +:+ "." +:+ lower format))
                (seq 1 (length images))),
         st')
    ∧ NoDup (map (page_path output_dir format) (seq 1 (length images)))
    ∧ (∀ k im, images !! k = Some im →
         files st' !! page_path output_dir format (S k)
           = Some (ImageFile im (upper format)))
    ∧ (∀ p, p ∉ map (page_path output_dir format) (seq 1 (length images)) →
         files st' !! p = files st !! p).
Proof.
  intros Hmk Hdec Hsave.
  unfold convert_pdf_to_images, bind at 1, os_makedirs at 1. rewrite Hmk.
  set (st1 := with_dirs _ st).
  set (st2 := with_decoded (decoded st1 ++ [(pdf_path, {[ "dpi" := PyInt dpi ]})]) st1).
  destruct (save_pages_ok output_dir format images Hsave 0%nat [] st2)
    as (st' & Hrun & _ & _ & Ha & Hb); [simpl; set_solver|].
  exists st'. split; [|split; [apply NoDup_page_paths|split]].
  - apply try_returns. unfold bind, decode_path. rewrite Hdec. exact Hrun.
  - intros k im Hk. by apply (Ha k im).
  - intros p Hp. rewrite Hb; [done|].
    intros k Hk ->. apply Hp. apply list_elem_of_fmap.
    exists (S k). split; [done|]. apply elem_of_seq. lia.
Qed.

End SavePages.

(** C1 at work: the three pages of [doc.pdf] as PNG files under [out]. *)
Lemma convert_pdf_to_images_pages_witness :
  ∃ st',
    convert_pdf_to_images Demo.world "doc.pdf" "out" 300 "png" Demo.fresh
      = (Returns ["out/page_1.png"; "out/page_2.png"; "out/page_3.png"], st')
    ∧ files st' !! "out/page_2.png" = Some (ImageFile Demo.page_b "PNG")
    ∧ files st' !! "out/page_4.png" = None.
Proof.
  destruct (convert_pdf_to_images_pages Demo.world "doc.pdf" "out" 300 "png"
              [Demo.page_a; Demo.page_b; Demo.page_c] Demo.fresh)
    as (st' & Hrun & _ & Ha & Hb);
    [reflexivity | reflexivity | intros; reflexivity |].
  exists st'. split; [exact Hrun | split].
  - exact (Ha 1%nat Demo.page_b eq_refl).
  - rewrite Hb; [reflexivity|]. vm_compute. intros Hin.
    repeat (apply elem_of_cons in Hin as [Hin|Hin]; [discriminate Hin|]).
    by apply elem_of_nil in Hin.
Defined.

(** ** The output directory and the guarded block *)

Section Guarded.
Context (W : World).

Lemma keeps_dirs_save_requested pages out fmt images todo :
  ∀ i acc, keeps_dirs (save_requested W pages out fmt images i todo acc).
Proof.
  induction todo as [|page_num rest IH]; intros i acc; simpl.
  - auto with effects.
  - case_bool_decide; [|apply IH].
    repeat (apply keeps_dirs_bind; [auto with effects | intros ?]).
    apply IH.
Qed.

Lemma keeps_dirs_save_pages_as out output_format images :
  keeps_dirs (save_pages_as W out output_format images).
Proof.
  unfold save_pages_as.
  destruct images, output_format;
    auto using keeps_dirs_save_pages with effects.
Qed.

Lemma keeps_dirs_handler (prefix : string) (e : Exn) :
  keeps_dirs (print (prefix +:+ exn_msg e) ;;; ret (A := list string) []).
Proof. apply keeps_dirs_bind; auto with effects. Qed.

(** What stands after [os.makedirs] finds the directory in place when the
    call returns. *)
Lemma after_makedirs {A : Type} (out : string) (m : M A) st r st' :
  keeps_dirs m →
  (os_makedirs W out ;;; m) st = (Returns r, st') → out ∈ dirs st'.
Proof.
  intros Hm. unfold bind.
  destruct (os_makedirs W out st) as [[[]|e] st1] eqn:E; [|done].
  intros Hr. apply makedirs_returns in E. apply Hm in Hr. set_solver.
Qed.

(** C10. Whenever one of the four conversions returns, with pages or with
    the empty list of a failed decoding, its output directory exists. *)
Theorem output_dir_exists_on_return :
  (∀ pdf_path output_dir dpi format st r st',
     convert_pdf_to_images W pdf_path output_dir dpi format st
       = (Returns r, st') → output_dir ∈ dirs st')
  ∧ (∀ pdf_bytes output_dir dpi format st r st',
       convert_pdf_bytes_to_images W pdf_bytes output_dir dpi format st
         = (Returns r, st') → output_dir ∈ dirs st')
  ∧ (∀ pdf_path pages output_dir dpi format st r st',
       convert_specific_pages W pdf_path pages output_dir dpi format st
         = (Returns r, st') → output_dir ∈ dirs st')
  ∧ (∀ pdf_path output_dir kwargs st r st',
       convert_with_custom_settings W pdf_path output_dir kwargs st
         = (Returns r, st') → output_dir ∈ dirs st').
Proof.
  repeat split; intros *; apply after_makedirs;
    apply keeps_dirs_try; try (intros e; apply keeps_dirs_handler).
  - apply keeps_dirs_bind; [auto with effects | intros images].
    apply keeps_dirs_save_pages.
  - apply keeps_dirs_bind; [auto with effects | intros images].
    apply keeps_dirs_save_pages.
  - repeat (apply keeps_dirs_bind; [auto with effects | intros ?]).
    apply keeps_dirs_save_requested.
  - apply keeps_dirs_bind; [auto with effects | intros images].
    apply keeps_dirs_save_pages_as.
Qed.

(** A conversion whose directory could be made and whose guarded block
    raises without writing: the handler returns the empty list. *)
Lemma guarded_block_raises (out prefix : string) (body : M (list string))
    st :
  makedirs_error W st out = None →
  (∃ e st1,
     body (with_dirs ({[out]} ∪ dirs st) st) = (Raises e, st1)
     ∧ files st1 = files st) →
  ∃ st',
    (os_makedirs W out ;;;
     try_except body (λ e, print (prefix +:+ exn_msg e) ;;; ret [])) st
      = (Returns [], st')
    ∧ files st' = files st.
Proof.
  intros Hmk (e & st1 & Hbody & Hfiles).
  unfold bind at 1, os_makedirs. rewrite Hmk.
  erewrite try_raises by exact Hbody. by eexists.
Qed.

(** C5, as the code has it. For a source the decoder cannot read,
    [get_pdf_info] returns the empty record, and each of the four
    conversions returns the empty list provided its output directory could
    be made; nothing is written. *)
Theorem unreadable_source_gives_empty (source pdf_bytes : string) :
  unreadable W source →
  unreadable_bytes W pdf_bytes →
  (∀ st, ∃ st',
     get_pdf_info W source st = (Returns ∅, st') ∧ files st' = files st)
  ∧ (∀ output_dir dpi format st,
       makedirs_error W st output_dir = None →
       ∃ st',
         convert_pdf_to_images W source output_dir dpi format st
           = (Returns [], st') ∧ files st' = files st)
  ∧ (∀ output_dir dpi format st,
       makedirs_error W st output_dir = None →
       ∃ st',
         convert_pdf_bytes_to_images W pdf_bytes output_dir dpi format st
           = (Returns [], st') ∧ files st' = files st)
  ∧ (∀ pages output_dir dpi format st,
       makedirs_error W st output_dir = None →
       ∃ st',
         convert_specific_pages W source pages output_dir dpi format st
           = (Returns [], st') ∧ files st' = files st)
  ∧ (∀ output_dir kwargs st,
       makedirs_error W st output_dir = None →
       ∃ st',
         convert_with_custom_settings W source output_dir kwargs st
           = (Returns [], st') ∧ files st' = files st).
Proof.
  intros Hpath Hbytes. repeat split.
  - intros st. destruct (Hpath {[ "dpi" := PyInt 50 ]}) as [e He].
    unfold get_pdf_info. erewrite try_raises;
      [| unfold bind, decode_path; rewrite He; reflexivity ].
    by eexists.
  - intros out dpi fmt st Hmk.
    destruct (Hpath {[ "dpi" := PyInt dpi ]}) as [e He].
    apply guarded_block_raises; [exact Hmk|].
    unfold bind, decode_path. rewrite He. by eexists _, _.
  - intros out dpi fmt st Hmk.
    destruct (Hbytes {[ "dpi" := PyInt dpi ]}) as [e He].
    apply guarded_block_raises; [exact Hmk|].
    unfold bind, decode_bytes. rewrite He. by eexists _, _.
  - intros pages out dpi fmt st Hmk.
    apply guarded_block_raises; [exact Hmk|].
    destruct pages as [|p pages].
    + unfold bind, lift. simpl. by eexists _, _.
    + destruct (Hpath (page_range_kwargs dpi (foldl Z.min p pages)
                         (foldl Z.max p pages))) as [e He].
      unfold bind, lift, decode_path. simpl. rewrite He. by eexists _, _.
  - intros out kwargs st Hmk.
    destruct (Hpath (delete "format" (kwargs ∪ default_settings)))
      as [e He].
    apply guarded_block_raises; [exact Hmk|].
    unfold bind, decode_path. rewrite He. by eexists _, _.
Qed.

(** C9, as the code has it. With an empty page list and an output directory
    that could be made, [convert_specific_pages] returns the empty list:
    [min] raises inside the guarded block, before the decoder is called,
    and the handler turns the error into []. *)
Theorem convert_specific_pages_no_pages (pdf_path output_dir : string)
    (dpi : Z) (format : string) (st : State) :
  makedirs_error W st output_dir = None →
  ∃ st',
    convert_specific_pages W pdf_path [] output_dir dpi format st
      = (Returns [], st')
    ∧ files st' = files st
    ∧ decoded st' = decoded st.
Proof.
  intros Hmk. unfold convert_specific_pages, bind at 1, os_makedirs.
  rewrite Hmk. by eexists.
Qed.

End Guarded.

(** C5 at work: [missing.pdf] does not decode; the record and the list come
    back empty on a disk where the output directory can be made. *)
Lemma unreadable_source_gives_empty_witness :
  unreadable Demo.world "missing.pdf"
  ∧ (∃ st',
       get_pdf_info Demo.world "missing.pdf" Demo.fresh = (Returns ∅, st')
       ∧ files st' = files Demo.fresh)
  ∧ (∃ st',
       convert_specific_pages Demo.world "missing.pdf" [2; 1] "out" 300 "PNG"
         Demo.fresh = (Returns [], st')
       ∧ files st' = files Demo.fresh).
Proof.
  assert (unreadable Demo.world "missing.pdf") as Hp
    by (intros kwargs; eexists; reflexivity).
  assert (unreadable_bytes Demo.world "not a pdf") as Hb
    by (intros kwargs; eexists; reflexivity).
  destruct (unreadable_source_gives_empty Demo.world "missing.pdf"
              "not a pdf" Hp Hb)
    as (Hinfo & _ & _ & Hpages & _).
  split; [exact Hp | split].
  - exact (Hinfo Demo.fresh).
  - exact (Hpages [2; 1] "out" 300 "PNG" Demo.fresh eq_refl).
Defined.

(** C5 as stated fails: where [pdf_images] is a regular file, the call on
    the unreadable [missing.pdf] raises out of [os.makedirs], which stands
    before the [try]. *)
Lemma unreadable_source_may_raise :
  unreadable Demo.world "missing.pdf"
  ∧ convert_pdf_to_images Demo.world "missing.pdf" "pdf_images" 300 "PNG"
      Demo.blocked
    = (Raises (mkExn "FileExistsError" "File exists"), Demo.blocked).
Proof.
  split; [intros kwargs; eexists; reflexivity | reflexivity].
Qed.

(** C9 at work: no pages asked of [doc.pdf]. *)
Lemma convert_specific_pages_no_pages_witness :
  ∃ st',
    convert_specific_pages Demo.world "doc.pdf" [] "out" 300 "PNG" Demo.fresh
      = (Returns [], st')
    ∧ files st' = files Demo.fresh
    ∧ decoded st' = decoded Demo.fresh.
Proof.
  exact (convert_specific_pages_no_pages Demo.world "doc.pdf" "out" 300 "PNG"
           Demo.fresh eq_refl).
Defined.

(** C9 as stated fails: with an empty page list too, the call raises where
    the output directory cannot be made. *)
Lemma convert_specific_pages_no_pages_may_raise :
  convert_specific_pages Demo.world "doc.pdf" [] "pdf_images" 300 "PNG"
    Demo.blocked
  = (Raises (mkExn "FileExistsError" "File exists"), Demo.blocked).
Proof. reflexivity. Qed.

(** C10 at work: the decoding of [missing.pdf] fails, the empty list comes
    back, and [out] is there. *)
Lemma output_dir_exists_on_return_witness :
  fst (convert_pdf_to_images Demo.world "missing.pdf" "out" 300 "PNG"
         Demo.fresh) = Returns []
  ∧ "out" ∈ dirs (snd (convert_pdf_to_images Demo.world "missing.pdf" "out"
                         300 "PNG" Demo.fresh)).
Proof.
  split; [reflexivity|].
  destruct (output_dir_exists_on_return Demo.world) as (Hall & _).
  eapply (Hall "missing.pdf" "out" 300 "PNG" Demo.fresh []).
  reflexivity.
Defined.

(** ** Requested pages *)

Lemma foldl_min_spec (l : list Z) :
  ∀ x, Forall (λ y, foldl Z.min x l ≤ y) (x :: l)
       ∧ foldl Z.min x l ∈ x :: l.
Proof.
  induction l as [|y l IH]; intros x; simpl.
  - split; [by repeat constructor | apply elem_of_cons; by left].
  - destruct (IH (Z.min x y)) as [Hle Hin].
    apply Forall_cons in Hle as [Hm Hle]. split.
    + repeat constructor; [lia | lia | exact Hle].
    + rewrite !elem_of_cons. apply elem_of_cons in Hin as [Hin|Hin]; [|auto].
      rewrite Hin. destruct (Z.min_spec x y) as [[_ ->]|[_ ->]]; auto.
Qed.

Lemma foldl_max_spec (l : list Z) :
  ∀ x, Forall (λ y, y ≤ foldl Z.max x l) (x :: l)
       ∧ foldl Z.max x l ∈ x :: l.
Proof.
  induction l as [|y l IH]; intros x; simpl.
  - split; [by repeat constructor | apply elem_of_cons; by left].
  - destruct (IH (Z.max x y)) as [Hle Hin].
    apply Forall_cons in Hle as [Hm Hle]. split.
    + repeat constructor; [lia | lia | exact Hle].
    + rewrite !elem_of_cons. apply elem_of_cons in Hin as [Hin|Hin]; [|auto].
      rewrite Hin. destruct (Z.max_spec x y) as [[_ ->]|[_ ->]]; auto.
Qed.

Lemma py_min_spec (l : list Z) (m : Z) :
  py_min l = Returns m ↔ m ∈ l ∧ Forall (λ y, m ≤ y) l.
Proof.
  destruct l as [|x l]; simpl.
  - split; [done | intros [Hin _]; by apply elem_of_nil in Hin].
  - destruct (foldl_min_spec l x) as [Hle Hin]. split.
    + by intros [= <-].
    + intros [Hm Hall]. f_equal.
      rewrite Forall_forall in Hle, Hall.
      apply Hle in Hm. apply Hall in Hin. lia.
Qed.

Lemma py_max_spec (l : list Z) (m : Z) :
  py_max l = Returns m ↔ m ∈ l ∧ Forall (λ y, y ≤ m) l.
Proof.
  destruct l as [|x l]; simpl.
  - split; [done | intros [Hin _]; by apply elem_of_nil in Hin].
  - destruct (foldl_max_spec l x) as [Hle Hin]. split.
    + by intros [= <-].
    + intros [Hm Hall]. f_equal.
      rewrite Forall_forall in Hle, Hall.
      apply Hle in Hm. apply Hall in Hin. lia.
Qed.

Lemma py_min_perm (l l' : list Z) : l ≡ₚ l' → py_min l = py_min l'.
Proof.
  intros Hp. destruct (py_min l) as [m|e] eqn:E.
  - symmetry. apply py_min_spec. apply py_min_spec in E. by rewrite <- Hp.
  - destruct l; [|done]. apply Permutation_nil_l in Hp. by subst.
Qed.

Lemma py_max_perm (l l' : list Z) : l ≡ₚ l' → py_max l = py_max l'.
Proof.
  intros Hp. destruct (py_max l) as [m|e] eqn:E.
  - symmetry. apply py_max_spec. apply py_max_spec in E. by rewrite <- Hp.
  - destruct l; [|done]. apply Permutation_nil_l in Hp. by subst.
Qed.

Lemma sorted_perm (l l' : list Z) : l ≡ₚ l' → sorted l = sorted l'.
Proof.
  intros Hp. unfold sorted.
  apply (StronglySorted_unique Z.le); try apply StronglySorted_merge_sort;
    try apply _.
  by rewrite !merge_sort_Permutation.
Qed.

Lemma StronglySorted_le_lt (l : list Z) :
  StronglySorted Z.le l → NoDup l → StronglySorted Z.lt l.
Proof.
  induction 1 as [|x l Hs IH Hall]; intros Hnd; [constructor|].
  apply NoDup_cons in Hnd as [Hx Hnd]. constructor; [by apply IH|].
  rewrite Forall_forall in Hall |- *. intros y Hy.
  specialize (Hall y Hy). assert (x ≠ y) by (intros ->; done). lia.
Qed.

(** Distinct integers between [lo] and [hi] are at most [hi - lo + 1]. *)
Lemma distinct_in_range (l : list Z) (lo hi : Z) :
  NoDup l → Forall (λ n, lo ≤ n ≤ hi) l →
  Z.of_nat (length l) ≤ Z.max 0 (hi - lo + 1).
Proof.
  intros Hnd Hall.
  assert (l ⊆+ seqZ lo (hi - lo + 1)) as Hsub.
  { apply NoDup_submseteq; [done|]. intros n Hn.
    rewrite Forall_forall in Hall. apply Hall in Hn.
    apply elem_of_seqZ. lia. }
  apply submseteq_length in Hsub. rewrite length_seqZ in Hsub. lia.
Qed.

Lemma py_getitem_lookup {A : Type} (l : list A) (k : Z) (x : A) :
  0 ≤ k → l !! Z.to_nat k = Some x → py_getitem l k = Returns x.
Proof.
  intros Hk Hx. unfold py_getitem.
  destruct (k <? 0) eqn:E; [lia|]. rewrite E. by rewrite Hx.
Qed.

Section Requested.
Context (W : World).

(** The loop reads [pages] only through [min(pages)]. *)
Lemma save_requested_pages pages pages' out fmt images todo :
  py_min pages = py_min pages' →
  ∀ i acc st,
    save_requested W pages out fmt images i todo acc st
    = save_requested W pages' out fmt images i todo acc st.
Proof.
  intros Hmin. induction todo as [|n rest IH]; intros i acc st; simpl.
  - done.
  - case_bool_decide; [|apply IH]. unfold bind. rewrite Hmin.
    destruct (lift (py_min pages') st) as [[lo|e] st1]; [|done].
    destruct (lift (py_getitem images (n - lo)) st1) as [[im|e] st2];
      [|done].
    destruct (image_save W im _ _ st2) as [[[]|e] st3]; [|done].
    destruct (print _ st3) as [[[]|e] st4]; [|done]. apply IH.
Qed.

(** The order in which the pages are asked for does not matter. *)
Lemma convert_specific_pages_perm pdf_path pages pages' out dpi fmt st :
  pages' ≡ₚ pages →
  convert_specific_pages W pdf_path pages' out dpi fmt st
  = convert_specific_pages W pdf_path pages out dpi fmt st.
Proof.
  intros Hp. unfold convert_specific_pages.
  rewrite (py_min_perm _ _ Hp), (py_max_perm _ _ Hp), (sorted_perm _ _ Hp).
  apply bind_ext; intros _ st1. apply try_ext; intros st2.
  apply bind_ext; intros lo st3. apply bind_ext; intros hi st4.
  apply bind_ext; intros images st5.
  apply save_requested_pages. by apply py_min_perm.
Qed.

(** When the decoder returned an image for every offset [n - lo] asked
    for, at least as many images as pages are asked for, and the encoder
    accepts them, the loop saves every page of [todo] under its own
    number and returns the paths in the order of [todo]. *)
Lemma save_requested_ok pages out fmt images lo :
  py_min pages = Returns lo →
  (∀ st im p, out ∈ dirs st → save_error W st im p (upper fmt) = None) →
  ∀ todo i acc st,
    out ∈ dirs st →
    NoDup todo →
    Forall (λ n, lo ≤ n ∧ n - lo < Z.of_nat (length images)) todo →
    (i + length todo ≤ length images)%nat →
    ∃ st',
      save_requested W pages out fmt images i todo acc st
        = (Returns (acc ++ map (page_path out fmt) todo), st')
      ∧ decoded st' = decoded st
      ∧ (∀ n, n ∈ todo →
           ∃ im, images !! Z.to_nat (n - lo) = Some im
                 ∧ files st' !! page_path out fmt n
                   = Some (ImageFile im (upper fmt)))
      ∧ (∀ p, p ∉ map (page_path out fmt) todo →
           files st' !! p = files st !! p).
Proof.
  intros Hmin Hsave.
  induction todo as [|n rest IH]; intros i acc st Hout Hnd Hall Hlen.
  - exists st. simpl. rewrite app_nil_r.
    split; [done|]. split; [done|]. split; [|done].
    intros n Hn. by apply elem_of_nil in Hn.
  - apply NoDup_cons in Hnd as [Hn Hnd].
    apply Forall_cons in Hall as [[Hlo Hhi] Hall].
    simpl in Hlen. simpl. rewrite bool_decide_true by lia.
    destruct (lookup_lt_is_Some_2 images (Z.to_nat (n - lo))) as [im Him];
      [lia|].
    unfold bind at 1, lift at 1. rewrite Hmin.
    unfold bind at 1, lift at 1.
    rewrite (py_getitem_lookup images (n - lo) im) by (done || lia).
    unfold bind at 1, image_save at 1. rewrite Hsave by done.
    unfold bind at 1, print at 1.
    set (fp := page_path out fmt n).
    set (st2 := with_stdout _ _).
    destruct (IH (S i) (acc ++ [fp]) st2 Hout Hnd Hall) as
      (st' & Hrun & Hc & Ha & Hb); [lia|].
    exists st'. rewrite Hrun, <- app_assoc. simpl.
    split; [done|]. split; [by rewrite Hc|]. split.
    + intros n' Hn'. apply elem_of_cons in Hn' as [->|Hn']; [|by apply Ha].
      exists im. split; [done|]. rewrite Hb.
      * subst st2 fp. simpl. by rewrite lookup_insert_eq.
      * intros Hin. apply list_elem_of_fmap in Hin as (m & Heq & Hm).
        apply page_path_inj in Heq. by subst.
    + intros p Hp. apply not_elem_of_cons in Hp as [Hp1 Hp2].
      rewrite Hb by done. subst st2. simpl. by rewrite lookup_insert_ne.
Qed.

(** C2. For a set of pages (no page twice) whose whole range the decoder
    returned, [convert_specific_pages] asks the decoder once, for the range
    from the least to the greatest page asked for, and returns the paths
    [page_n.ext] of exactly the pages asked for, in ascending order; the
    file of page [n] holds the image at offset [n - lo] of the range; and
    any other order of the same pages gives the same run. *)
Theorem convert_specific_pages_sorted (pdf_path : string) (pages : list Z)
    (output_dir : string) (dpi : Z) (format : string) (lo hi : Z)
    (images : list Image) (st : State) :
  NoDup pages →
  py_min pages = Returns lo →
  py_max pages = Returns hi →
  makedirs_error W st output_dir = None →
  convert_from_path W pdf_path (page_range_kwargs dpi lo hi)
    = Returns images →
  hi - lo < Z.of_nat (length images) →
  (∀ st' im p, output_dir ∈ dirs st' →
     save_error W st' im p (upper format) = None) →
  ∃ st',
    convert_specific_pages W pdf_path pages output_dir dpi format st
      = (Returns
           (map (λ n : Z,
                   os_path_join output_dir
                     ("page_" +:+ pretty n +:+ "." +:+ lower format))
                (sorted pages)),
         st')
    ∧ decoded st' = decoded st ++ [(pdf_path, page_range_kwargs dpi lo hi)]
    ∧ StronglySorted Z.lt (sorted pages)
    ∧ sorted pages ≡ₚ pages
    ∧ (∀ n, n ∈ pages →
         ∃ im, images !! Z.to_nat (n - lo) = Some im
               ∧ files st' !! page_path output_dir format n
                 = Some (ImageFile im (upper format)))
    ∧ (∀ pages', pages' ≡ₚ pages →
         convert_specific_pages W pdf_path pages' output_dir dpi format st
         = convert_specific_pages W pdf_path pages output_dir dpi format st).
Proof.
  intros Hnd Hmin Hmax Hmk Hdec Hlen Hsave.
  assert (sorted pages ≡ₚ pages) as Hperm by apply merge_sort_Permutation.
  assert (StronglySorted Z.le (sorted pages)) as Hsorted
    by (apply StronglySorted_merge_sort; apply _).
  pose proof Hmin as Hlo. apply py_min_spec in Hlo as [_ Hlo].
  pose proof Hmax as Hhi. apply py_max_spec in Hhi as [_ Hhi].
  rewrite Forall_forall in Hlo, Hhi.
  assert (Forall (λ n, lo ≤ n ≤ hi) pages) as Hrange.
  { apply Forall_forall. intros n Hn. split; [by apply Hlo | by apply Hhi]. }
  pose proof (distinct_in_range pages lo hi Hnd Hrange) as Hcount.
  pose proof (λ pages', convert_specific_pages_perm pdf_path pages pages'
                          output_dir dpi format st) as Hany.
  unfold convert_specific_pages at 1, bind at 1, os_makedirs at 1.
  rewrite Hmk.
  set (st1 := with_dirs _ st).
  set (st2 := with_decoded
                (decoded st1 ++ [(pdf_path, page_range_kwargs dpi lo hi)])
                st1).
  destruct (save_requested_ok pages output_dir format images lo Hmin Hsave
              (sorted pages) 0%nat [] st2) as (st' & Hrun & Hc & Ha & _).
  { simpl. set_solver. }
  { by rewrite Hperm. }
  { rewrite Hperm. eapply Forall_impl; [exact Hrange|].
    simpl. intros n Hn. lia. }
  { rewrite Hperm. simpl. lia. }
  exists st'. split; [|split; [|split; [|split; [|split]]]].
  - apply try_returns. unfold bind, lift, decode_path.
    rewrite Hmin, Hmax, Hdec. exact Hrun.
  - by rewrite Hc.
  - apply StronglySorted_le_lt; [done | by rewrite Hperm].
  - done.
  - intros n Hn. apply Ha. by rewrite Hperm.
  - exact Hany.
Qed.

End Requested.

(** C2 at work: pages 3 and 1 of [doc.pdf], asked for in that order. *)
Lemma convert_specific_pages_sorted_witness :
  ∃ st',
    convert_specific_pages Demo.world "doc.pdf" [3; 1] "out" 300 "PNG"
      Demo.fresh
    = (Returns ["out/page_1.png"; "out/page_3.png"], st')
    ∧ decoded st' = [("doc.pdf", page_range_kwargs 300 1 3)]
    ∧ files st' !! "out/page_3.png" = Some (ImageFile Demo.page_c "PNG").
Proof.
  destruct (convert_specific_pages_sorted Demo.world "doc.pdf" [3; 1] "out"
              300 "PNG" 1 3 [Demo.page_a; Demo.page_b; Demo.page_c]
              Demo.fresh)
    as (st' & Hrun & Hdec & _ & _ & Ha & _);
    [ apply NoDup_cons; split;
      [by intros ?%list_elem_of_singleton | apply NoDup_singleton]
    | reflexivity | reflexivity | reflexivity | reflexivity | reflexivity
    | intros; reflexivity | ].
  exists st'. split; [exact Hrun | split; [exact Hdec|]].
  destruct (Ha 3) as (im & Him & Hfile); [set_solver|].
  injection Him as <-. exact Hfile.
Defined.

(** Outside the hypotheses of C2, in a world whose decoder clips the
    range to the document: pages 1 and 5 of the three-page [doc.pdf] leave
    three images, the index 5 - 1 is out of range at the second turn, and
    the handler returns the empty list after page 1 was saved; with page 1
    asked for twice, the test [i < len(images)] lets it through twice and
    stops before page 2. *)
Example convert_specific_pages_outside :
  fst (convert_specific_pages Demo.world "doc.pdf" [1; 5] "out" 300 "PNG"
         Demo.fresh) = Returns []
  ∧ files (snd (convert_specific_pages Demo.world "doc.pdf" [1; 5] "out" 300
                  "PNG" Demo.fresh)) !! "out/page_1.png"
    = Some (ImageFile Demo.page_a "PNG")
  ∧ fst (convert_specific_pages Demo.world "doc.pdf" [1; 1; 2] "out" 300 "PNG"
           Demo.fresh) = Returns ["out/page_1.png"; "out/page_1.png"].
Proof. repeat split; reflexivity. Qed.

(** ** The record of [get_pdf_info] *)

(** C7. On a PDF that decodes to no page and whose size can be read,
    [get_pdf_info] returns a record with exactly three fields: a page count
    of 0, the size in megabytes and the file name; it has no
    [page_dimensions] and no [page_mode]. *)
Theorem get_pdf_info_no_pages (W : World) (pdf_path : string) (size : Z)
    (st : State) :
  convert_from_path W pdf_path {[ "dpi" := PyInt 50 ]} = Returns [] →
  os_path_getsize W pdf_path = Returns size →
  ∃ st' info,
    get_pdf_info W pdf_path st = (Returns info, st')
    ∧ info !! "page_count" = Some (PyInt 0)
    ∧ info !! "file_size_mb" = Some (PyFloat (Qmake size 1048576))
    ∧ info !! "filename" = Some (PyStr (os_path_basename pdf_path))
    ∧ info !! "page_dimensions" = None
    ∧ info !! "page_mode" = None
    ∧ dom info = {[ "page_count"; "file_size_mb"; "filename" ]}.
Proof.
  intros Hdec Hsize. unfold get_pdf_info.
  eexists _, _. split.
  { apply try_returns. unfold bind, decode_path, lift.
    rewrite Hdec, Hsize. reflexivity. }
  repeat split; reflexivity.
Qed.

(** C7 at work: [empty.pdf], half a megabyte and no page. *)
Lemma get_pdf_info_no_pages_witness :
  ∃ st' info,
    get_pdf_info Demo.world "empty.pdf" Demo.fresh = (Returns info, st')
    ∧ info !! "page_count" = Some (PyInt 0)
    ∧ info !! "file_size_mb" = Some (PyFloat (Qmake 524288 1048576))
    ∧ info !! "filename" = Some (PyStr "empty.pdf")
    ∧ info !! "page_dimensions" = None
    ∧ info !! "page_mode" = None
    ∧ dom info = {[ "page_count"; "file_size_mb"; "filename" ]}.
Proof.
  exact (get_pdf_info_no_pages Demo.world "empty.pdf" 524288 Demo.fresh
           eq_refl eq_refl).
Defined.

(** ** Binarisation *)

Lemma band_value_point (lut : Z → Z) (mode : string) (im : Image)
    (i j : nat) (v : Z) :
  band_value im i j = Some v →
  band_value (image_point lut mode im) i j = Some (lut v).
Proof.
  unfold band_value. simpl. rewrite list_lookup_fmap.
  destruct (img_data im !! i) as [px|]; [|done]. simpl.
  intros Hv. by rewrite list_lookup_fmap, Hv.
Qed.

(** C4. The image handed to the recogniser is the grayscale page put
    through the threshold: a band value below 128 (127 for one) becomes 0,
    a value of 128 or more (128 for one) becomes 255, and the image is in
    mode [1]. *)
Theorem binarize_threshold (W : World) (image gray : Image) :
  image_convert W image "L" = Returns gray →
  ∃ bw,
    binarize W image = Returns bw
    ∧ recognise W image = image_to_string W bw "ben"
    ∧ img_mode bw = "1"
    ∧ (∀ i j v, band_value gray i j = Some v →
         (v < 128 → band_value bw i j = Some 0)
         ∧ (128 ≤ v → band_value bw i j = Some 255))
    ∧ threshold 127 = 0
    ∧ threshold 128 = 255.
Proof.
  intros Hgray. exists (image_point threshold "1" gray).
  unfold recognise, binarize. rewrite Hgray.
  split; [done|]. split; [done|]. split; [done|]. split; [|done].
  intros i j v Hv. rewrite (band_value_point threshold "1" gray i j v Hv).
  unfold threshold.
  split; intros Hcmp; destruct (Z.ltb_spec v 128); (done || lia).
Qed.

(** C4 at work: the four pixels 0, 127, 128, 255 of [page_a]. *)
Lemma binarize_threshold_witness :
  ∃ bw,
    binarize Demo.world Demo.page_a = Returns bw
    ∧ img_data bw = [[0]; [0]; [255]; [255]].
Proof.
  destruct (binarize_threshold Demo.world Demo.page_a
              (Demo.gray_image 2 2 [0; 127; 128; 255]) eq_refl)
    as (bw & Hbw & _).
  exists bw. split; [exact Hbw|].
  injection Hbw as <-. reflexivity.
Defined.

(** ** The OCR pipeline *)

Section Pipeline.
Context (W : World).

Lemma reads_only_ocr_pages images :
  ∀ i all_text, reads_only (ocr_pages W i images all_text).
Proof.
  induction images as [|im rest IH]; intros i all_text; simpl.
  - auto with effects.
  - apply reads_only_bind; [auto with effects | intros _].
    apply reads_only_bind; [auto with effects | intros text]. apply IH.
Qed.

Lemma reads_only_extract pdf_path :
  reads_only (extract_text_from_pdf W pdf_path).
Proof.
  apply reads_only_try.
  - apply reads_only_bind; [auto with effects | intros images].
    apply reads_only_bind; [apply reads_only_ocr_pages | intros all_text].
    auto with effects.
  - intros e. apply reads_only_bind; auto with effects.
Qed.

(** One failing page makes the whole loop raise. *)
Lemma ocr_pages_raises images :
  Exists (page_fails W) images →
  ∀ i all_text st, ∃ e st',
    ocr_pages W i images all_text st = (Raises e, st').
Proof.
  induction images as [|im rest IH]; intros Hex i all_text st.
  - by apply Exists_nil in Hex.
  - simpl. unfold bind at 1, print at 1. unfold bind at 1, lift at 1.
    destruct (recognise W im) as [text|e] eqn:E; [|by eexists _, _].
    apply Exists_cons in Hex as [[e He]|Hex]; [congruence|].
    by apply IH.
Qed.

(** When every page is recognised, the loop returns one section a page,
    in page order. *)
Lemma ocr_pages_returns images texts :
  Forall2 (λ im text, recognise W im = Returns text) images texts →
  ∀ i all_text st, ∃ st',
    ocr_pages W i images all_text st
    = (Returns (all_text ++ imap (λ k, page_section (i + k)) texts), st').
Proof.
  induction 1 as [|im text images texts Him _ IH]; intros i all_text st.
  - exists st. simpl. by rewrite app_nil_r.
  - simpl. unfold bind at 1, print at 1. unfold bind at 1, lift at 1.
    rewrite Him. set (st1 := with_stdout _ st).
    destruct (IH (S i) (all_text ++ [page_section i text]) st1)
      as [st' Hrun].
    exists st'. rewrite Hrun, <- app_assoc, Nat.add_0_r. simpl.
    do 4 f_equal. apply imap_ext. intros k t _. simpl. f_equal. lia.
Qed.

(** [extract_text_from_pdf] never raises, and writes nothing. *)
Lemma extract_returns pdf_path st :
  ∃ text st',
    extract_text_from_pdf W pdf_path st = (Returns text, st')
    ∧ files st' = files st ∧ dirs st' = dirs st.
Proof.
  destruct (extract_text_from_pdf W pdf_path st) as [[text|e] st'] eqn:E.
  - apply reads_only_extract in E as [Hd Hf]. by eexists _, _.
  - exfalso. unfold extract_text_from_pdf, try_except in E.
    destruct (bind _ _ st) as [[a|e'] st1]; [done|].
    unfold bind, print, ret in E. done.
Qed.

Lemma extract_all_pages pdf_path images texts st :
  convert_from_path W pdf_path ∅ = Returns images →
  Forall2 (λ im text, recognise W im = Returns text) images texts →
  ∃ st',
    extract_text_from_pdf W pdf_path st
    = (Returns (join_all (imap page_section texts)), st').
Proof.
  intros Hdec Hall. unfold extract_text_from_pdf.
  set (st1 := with_decoded (decoded st ++ [(pdf_path, ∅)]) st).
  destruct (ocr_pages_returns images texts Hall 0%nat [] st1) as [st' Hrun].
  exists st'. apply try_returns. unfold bind at 1, decode_path at 1.
  rewrite Hdec. fold st1. unfold bind. rewrite Hrun. reflexivity.
Qed.

(** What one turn of the batch loop does when the write goes through: it
    stores the text [extract_text_from_pdf] returned, and nothing else. *)
Lemma process_file_writes pdf_file st :
  (∀ st1 text, dirs st1 = dirs st → files st1 = files st →
     write_error W st1 (output_path pdf_file) text = None) →
  ∃ st0 text st',
    fst (extract_text_from_pdf W (os_path_join files_dir pdf_file) st0)
      = Returns text
    ∧ process_file W pdf_file st = (Returns tt, st')
    ∧ files st' = <[output_path pdf_file := TextFile text]> (files st)
    ∧ dirs st' = dirs st.
Proof.
  intros Hw. unfold process_file.
  unfold bind at 1, print at 1. unfold bind at 1, print at 1.
  set (st0 := with_stdout _ (with_stdout _ st)).
  destruct (extract_returns (os_path_join files_dir pdf_file) st0)
    as (text & st1 & Hrun & Hf & Hd).
  exists st0, text. eexists. split; [by rewrite Hrun|].
  unfold bind at 1. rewrite Hrun.
  unfold bind, write_text, print. rewrite Hw by (by rewrite ?Hd, ?Hf).
  split; [reflexivity|]. simpl. by rewrite Hf, Hd.
Qed.

(** C3. When the decoder raises, or when conversion to grayscale or
    recognition raises on some page, [extract_text_from_pdf] returns the
    empty string and writes no file; and the turn of the batch loop that
    called it stores the empty string, not the text of the pages that were
    recognised before the failure. *)
Theorem extract_text_failure_is_empty (pdf_path : string) (st : State) :
  (∃ e, convert_from_path W pdf_path ∅ = Raises e)
  ∨ (∃ images, convert_from_path W pdf_path ∅ = Returns images
               ∧ Exists (page_fails W) images) →
  (∃ st',
     extract_text_from_pdf W pdf_path st = (Returns "", st')
     ∧ files st' = files st ∧ dirs st' = dirs st)
  ∧ (∀ pdf_file,
       os_path_join files_dir pdf_file = pdf_path →
       (∀ st1 text, dirs st1 = dirs st → files st1 = files st →
          write_error W st1 (output_path pdf_file) text = None) →
       ∃ st',
         process_file W pdf_file st = (Returns tt, st')
         ∧ files st' = <[output_path pdf_file := TextFile ""]> (files st)).
Proof.
  intros Hfail.
  assert (∀ st0, ∃ st',
            extract_text_from_pdf W pdf_path st0 = (Returns "", st')
            ∧ files st' = files st0 ∧ dirs st' = dirs st0) as Hempty.
  { intros st0.
    destruct (extract_returns pdf_path st0) as (text & st' & Hrun & Hf & Hd).
    exists st'. split; [|done]. rewrite Hrun. do 2 f_equal.
    unfold extract_text_from_pdf, try_except in Hrun.
    destruct Hfail as [[e He]|(images & Hdec & Hex)].
    - unfold bind at 1, decode_path at 1 in Hrun. rewrite He in Hrun.
      unfold bind, print, ret in Hrun. congruence.
    - unfold bind at 1, decode_path at 1 in Hrun. rewrite Hdec in Hrun.
      set (st1 := with_decoded _ st0) in Hrun.
      destruct (ocr_pages_raises images Hex 0%nat [] st1) as (e & st2 & Hr).
      unfold bind at 1 in Hrun. rewrite Hr in Hrun.
      unfold bind, print, ret in Hrun. congruence. }
  split; [apply Hempty|].
  intros pdf_file Hpath Hw.
  destruct (process_file_writes pdf_file st Hw)
    as (st0 & text & st' & Hext & Hrun & Hf & _).
  exists st'. split; [exact Hrun|]. rewrite Hf. do 2 f_equal.
  rewrite Hpath in Hext. destruct (Hempty st0) as (st1 & Hr & _).
  rewrite Hr in Hext. simpl in Hext. congruence.
Qed.

End Pipeline.

(** C3 at work: the second page of [files/torn.pdf] has no pixels and the
    recogniser gives up on it; page 1 was fine, and the text is empty. *)
Lemma extract_text_failure_is_empty_witness :
  recognise Demo.world Demo.page_a = Returns "ink 2"
  ∧ page_fails Demo.world Demo.blank_page
  ∧ (∃ st',
       extract_text_from_pdf Demo.world "files/torn.pdf" Demo.ready
         = (Returns "", st')
       ∧ files st' = files Demo.ready ∧ dirs st' = dirs Demo.ready)
  ∧ (∃ st',
       process_file Demo.world "torn.pdf" Demo.ready = (Returns tt, st')
       ∧ files st' = {[ "extracted_text/torn_extracted.txt" := TextFile "" ]}).
Proof.
  assert (page_fails Demo.world Demo.blank_page) as Hblank
    by (eexists; reflexivity).
  destruct (extract_text_failure_is_empty Demo.world "files/torn.pdf"
              Demo.ready) as [Hext Hfile].
  { right. exists [Demo.page_a; Demo.blank_page; Demo.page_c].
    split; [reflexivity|]. apply Exists_cons_tl, Exists_cons_hd, Hblank. }
  split; [reflexivity | split; [exact Hblank | split; [exact Hext|]]].
  destruct (Hfile "torn.pdf" eq_refl) as (st' & Hrun & Hf).
  { intros st1 text Hd _. unfold write_error, Demo.world, Demo.open_check.
    rewrite Hd. reflexivity. }
  exists st'. split; [exact Hrun | exact Hf].
Defined.

(** ** The batch driver *)

Section Batch.
Context (W : World).

(** With every write going through, the loop over the input files runs to
    its end, whatever the decoder and the recogniser do. *)
Lemma process_files_returns pdf_files :
  ∀ st,
    (∀ st1 p text, dirs st1 = dirs st → write_error W st1 p text = None) →
    ∃ st', process_files W pdf_files st = (Returns tt, st')
           ∧ dirs st' = dirs st.
Proof.
  induction pdf_files as [|f rest IH]; intros st Hw; simpl.
  - by exists st.
  - destruct (process_file_writes W f st)
      as (st0 & text & st1 & _ & Hrun & _ & Hd); [by auto|].
    destruct (IH st1) as (st' & Hrest & Hd').
    { intros st2 p text' Hd2. apply Hw. by rewrite Hd2. }
    exists st'. unfold bind. rewrite Hrun, Hrest. by rewrite Hd', Hd.
Qed.

(** The output of one input file survives the turns after its own, as
    long as no other input shares its output name. *)
Lemma process_files_output pdf_file expected pdf_files :
  (∀ st0, fst (extract_text_from_pdf W (os_path_join files_dir pdf_file) st0)
          = Returns expected) →
  (∀ f, f ∈ pdf_files → output_path f = output_path pdf_file →
        f = pdf_file) →
  ∀ st,
    (∀ st1 p text, dirs st1 = dirs st → write_error W st1 p text = None) →
    ∃ st',
      process_files W pdf_files st = (Returns tt, st')
      ∧ (pdf_file ∈ pdf_files
         ∨ files st !! output_path pdf_file = Some (TextFile expected) →
         files st' !! output_path pdf_file = Some (TextFile expected)).
Proof.
  intros Hext. induction pdf_files as [|f rest IH]; intros Huniq st Hw; simpl.
  - exists st. split; [done|]. intros [Hin|Hf]; [|done].
    by apply elem_of_nil in Hin.
  - destruct (process_file_writes W f st)
      as (st0 & text & st1 & Htext & Hrun & Hf & Hd); [by auto|].
    destruct (IH (λ g Hg, Huniq g (list_elem_of_further _ _ _ Hg)) st1)
      as (st' & Hrest & Hkeep).
    { intros st2 p text' Hd2. apply Hw. by rewrite Hd2. }
    exists st'. unfold bind. rewrite Hrun, Hrest. split; [done|].
    intros Hcase. apply Hkeep.
    destruct (decide (f = pdf_file)) as [->|Hne].
    + right. rewrite Hf, lookup_insert_eq. rewrite Hext in Htext.
      by injection Htext as <-.
    + destruct Hcase as [Hin|Hold].
      * left. apply elem_of_cons in Hin as [Heq|Hin]; [by subst|done].
      * right. rewrite Hf, lookup_insert_ne; [done|].
        intros Heq. apply Hne, Huniq; [left | done].
Qed.

(** C6, as the code has it. Errors of the decoder, of the conversion to
    grayscale and of the recogniser never leave [extract_text_from_pdf];
    so, provided listing the input directory and writing the output files
    go through, the batch driver runs to its end. *)
Theorem main_survives_page_failures (names : list string) (st : State) :
  os_listdir W files_dir = Returns names →
  (∀ st1 p text, dirs st1 = dirs st → write_error W st1 p text = None) →
  (∀ pdf_path st0, ∃ text st1,
     extract_text_from_pdf W pdf_path st0 = (Returns text, st1))
  ∧ ∃ st', main W st = (Returns tt, st').
Proof.
  intros Hls Hw. split.
  - intros pdf_path st0.
    destruct (extract_returns W pdf_path st0) as (text & st1 & Hrun & _).
    by eexists _, _.
  - unfold main. destruct (os_path_exists W files_dir); simpl;
      [|by eexists].
    unfold bind at 1, lift at 1. rewrite Hls.
    destruct (filter _ names) as [|f rest] eqn:E; [by eexists|].
    destruct (process_files_returns (f :: rest) st Hw) as (st' & Hrun & _).
    unfold bind. rewrite Hrun. by eexists.
Qed.

(** C8. For a listed PDF whose pages all decode and are all recognised,
    with the writes going through and no other listed PDF sharing its
    output name, the batch driver ends with the output file of that PDF
    holding, page after page, the line [Page k:], the text of page k, a
    newline and an empty line. *)
Theorem main_writes_page_sections (names : list string) (pdf_file : string)
    (images : list Image) (texts : list string) (st : State) :
  os_path_exists W files_dir = true →
  os_listdir W files_dir = Returns names →
  pdf_file ∈ names →
  is_pdf pdf_file = true →
  convert_from_path W (os_path_join files_dir pdf_file) ∅ = Returns images →
  Forall2 (λ im text, recognise W im = Returns text) images texts →
  (∀ st1 p text, dirs st1 = dirs st → write_error W st1 p text = None) →
  (∀ f, f ∈ names → is_pdf f = true →
        output_path f = output_path pdf_file → f = pdf_file) →
  ∃ st',
    main W st = (Returns tt, st')
    ∧ files st' !! output_path pdf_file
      = Some (TextFile
                (join_all
                   (imap (λ k text,
                            "Page " +:+ pretty (k + 1)%nat +:+ ":" +:+ nl
                            +:+ text +:+ nl +:+ nl)
                         texts))).
Proof.
  intros Hex Hls Hin Hpdf Hdec Hall Hw Huniq.
  unfold main. rewrite Hex. simpl. unfold bind at 1, lift at 1. rewrite Hls.
  assert (pdf_file ∈ filter (λ f, is_pdf f = true) names) as Hin'
    by (by apply list_elem_of_filter).
  destruct (process_files_output pdf_file
              (join_all (imap page_section texts))
              (filter (λ f, is_pdf f = true) names)) with (st := st)
    as (st' & Hrun & Hkeep).
  - intros st0.
    destruct (extract_all_pages W _ images texts st0 Hdec Hall) as [st1 ->].
    done.
  - intros f Hf. apply list_elem_of_filter in Hf as [Hf1 Hf2]. by apply Huniq.
  - exact Hw.
  - destruct (filter _ names) as [|f rest] eqn:E;
      [by apply elem_of_nil in Hin'|].
    unfold bind. rewrite Hrun. eexists. split; [reflexivity|].
    simpl. apply Hkeep. by left.
Qed.

End Batch.

(** C6 at work: [torn.pdf] fails on its second page, and the driver still
    runs to its end on a disk that has the output directory. *)
Lemma main_survives_page_failures_witness :
  page_fails Demo.world Demo.blank_page
  ∧ ∃ st', main Demo.world Demo.ready = (Returns tt, st').
Proof.
  split; [eexists; reflexivity|].
  destruct (main_survives_page_failures Demo.world
              ["a.pdf"; "notes.txt"; "torn.pdf"] Demo.ready) as [_ Hmain].
  - reflexivity.
  - intros st1 p text Hd. unfold write_error, Demo.world, Demo.open_check.
    rewrite Hd. reflexivity.
  - exact Hmain.
Defined.

(** C6 as stated fails: the write of the output file stands outside any
    [try]; on a disk without [extracted_text] the driver aborts on its
    first input, although that input decodes and is recognised. *)
Lemma main_may_abort :
  fst (extract_text_from_pdf Demo.world "files/a.pdf" Demo.fresh)
    = Returns ("Page 1:" +:+ nl +:+ "ink 2" +:+ nl +:+ nl
               +:+ "Page 2:" +:+ nl +:+ "ink 1" +:+ nl +:+ nl)
  ∧ fst (main Demo.world Demo.fresh)
    = Raises (mkExn "FileNotFoundError" "No such file or directory").
Proof. split; reflexivity. Qed.

(** C8 at work: the two pages of [a.pdf]. *)
Lemma main_writes_page_sections_witness :
  ∃ st',
    main Demo.world Demo.ready = (Returns tt, st')
    ∧ files st' !! "extracted_text/a_extracted.txt"
      = Some (TextFile ("Page 1:" +:+ nl +:+ "ink 2" +:+ nl +:+ nl
                        +:+ "Page 2:" +:+ nl +:+ "ink 1" +:+ nl +:+ nl)).
Proof.
  destruct (main_writes_page_sections Demo.world
              ["a.pdf"; "notes.txt"; "torn.pdf"] "a.pdf"
              [Demo.page_a; Demo.page_b] ["ink 2"; "ink 1"] Demo.ready)
    as (st' & Hrun & Hfile).
  - reflexivity.
  - reflexivity.
  - set_solver.
  - reflexivity.
  - reflexivity.
  - repeat constructor.
  - intros st1 p text Hd. unfold write_error, Demo.world, Demo.open_check.
    rewrite Hd. reflexivity.
  - intros f Hf Hpdf Hout.
    repeat (apply elem_of_cons in Hf as [->|Hf]; [done || discriminate|]).
    by apply elem_of_nil in Hf.
  - exists st'. split; [exact Hrun | exact Hfile].
Defined.

(** * Further properties *)

(** ** What the page loop writes, whatever the encoder does *)

Section MorePages.
Context (W : World).

(** The loop changes no directory, calls no decoder, and changes no file
    but the pages it is given, whether it ends or raises. *)
Lemma save_pages_touches out fmt images :
  ∀ i acc st r st',
    save_pages W out fmt i images acc st = (r, st') →
    dirs st' = dirs st
    ∧ decoded st' = decoded st
    ∧ (∀ p, (∀ k, (k < length images)%nat →
               p ≠ page_path out fmt (S (i + k))) →
         files st' !! p = files st !! p).
Proof.
  induction images as [|im rest IH]; intros i acc st r st'; simpl.
  - unfold ret. by intros [= <- <-].
  - unfold bind at 1, image_save at 1.
    destruct (save_error W st im _ _) as [e|]; [by intros [= <- <-]|].
    unfold bind at 1, print at 1. rewrite Nat.add_1_r.
    set (st2 := with_stdout _ _). intros Hrun.
    apply IH in Hrun as (Hd & Hc & Hb).
    split; [by rewrite Hd|]. split; [by rewrite Hc|].
    intros p Hp. rewrite Hb.
    + subst st2. simpl. rewrite lookup_insert_ne; [done|].
      intros <-. apply (Hp 0%nat); [lia|]. by rewrite Nat.add_0_r.
    + intros k Hk. replace (S (S i + k)) with (S (i + S k)) by lia.
      apply Hp. lia.
Qed.

(** A loop that returns has saved every page and returns all the paths. *)
Lemma save_pages_returned out fmt images :
  ∀ i acc st r st',
    save_pages W out fmt i images acc st = (Returns r, st') →
    r = acc ++ map (page_path out fmt) (seq (S i) (length images))
    ∧ (∀ k im, images !! k = Some im →
         files st' !! page_path out fmt (S (i + k))
           = Some (ImageFile im (upper fmt))).
Proof.
  induction images as [|im rest IH]; intros i acc st r st'; simpl.
  - unfold ret. intros [= <- <-]. rewrite app_nil_r. split; [done|].
    intros k im Hk. by rewrite lookup_nil in Hk.
  - unfold bind at 1, image_save at 1.
    destruct (save_error W st im _ _) as [e|]; [done|].
    unfold bind at 1, print at 1. rewrite Nat.add_1_r.
    set (fp := page_path out fmt (S i)).
    set (st2 := with_stdout _ _). intros Hrun.
    pose proof (save_pages_touches _ _ _ _ _ _ _ _ Hrun) as (_ & _ & Hb).
    apply IH in Hrun as [-> Ha]. rewrite <- app_assoc. split; [done|].
    intros [|k] im' Hk; simpl in Hk.
    + injection Hk as <-. rewrite Nat.add_0_r, Hb.
      { subst st2 fp. simpl. by rewrite lookup_insert_eq. }
      intros k _ Heq. apply page_path_inj in Heq. lia.
    + replace (S (i + S k)) with (S (S i + k)) by lia. by apply Ha.
Qed.


(** X1. [convert_pdf_bytes_to_images] on a buffer that decodes to N pages,
    with a directory that could be made and a format the encoder accepts:
    the N paths [page_1.ext] .. [page_N.ext] in page order, the k-th file
    holding the k-th page, no other file changed. *)
Theorem convert_pdf_bytes_to_images_pages (pdf_bytes output_dir : string)
    (dpi : Z) (format : string) (images : list Image) (st : State) :
  makedirs_error W st output_dir = None →
  convert_from_bytes W pdf_bytes {[ "dpi" := PyInt dpi ]} = Returns images →
  (∀ st' im p, output_dir ∈ dirs st' →
     save_error W st' im p (upper format) = None) →
  ∃ st',
    convert_pdf_bytes_to_images W pdf_bytes output_dir dpi format st
      = (Returns
           (map (λ n : nat,
                   os_path_join output_dir
                     ("page_" +:+ pretty n +:+ "." +:+ lower format))
                (seq 1 (length images))),
         st')
    ∧ (∀ k im, images !! k = Some im →
         files st' !! page_path output_dir format (S k)
           = Some (ImageFile im (upper format)))
    ∧ (∀ p, p ∉ map (page_path output_dir format) (seq 1 (length images)) →
         files st' !! p = files st !! p).
Proof.
  intros Hmk Hdec Hsave.
  unfold convert_pdf_bytes_to_images, bind at 1, os_makedirs at 1.
  rewrite Hmk. set (st1 := with_dirs _ st).
  destruct (save_pages_ok W output_dir format images Hsave 0%nat [] st1)
    as (st' & Hrun & _ & _ & Ha & Hb); [simpl; set_solver|].
  exists st'. split; [|split].
  - apply try_returns. unfold bind, decode_bytes. rewrite Hdec. exact Hrun.
  - intros k im Hk. by apply (Ha k im).
  - intros p Hp. rewrite Hb; [done|].
    intros k Hk ->. apply Hp. apply list_elem_of_fmap.
    exists (S k). split; [done|]. apply elem_of_seq. lia.
Qed.

(** X2. The list [convert_pdf_to_images] returns is all or nothing: it is
    empty, or it names every page the decoder returned, each of them on
    disk with its page. *)
Theorem convert_pdf_to_images_all_or_nothing (pdf_path output_dir : string)
    (dpi : Z) (format : string) (st : State) (r : list string)
    (st' : State) :
  convert_pdf_to_images W pdf_path output_dir dpi format st
    = (Returns r, st') →
  r = []
  ∨ ∃ images,
      convert_from_path W pdf_path {[ "dpi" := PyInt dpi ]} = Returns images
      ∧ r = map (page_path output_dir format) (seq 1 (length images))
      ∧ (∀ k im, images !! k = Some im →
           files st' !! page_path output_dir format (S k)
             = Some (ImageFile im (upper format))).
Proof.
  unfold convert_pdf_to_images, bind at 1.
  destruct (os_makedirs W output_dir st) as [[[]|e] st1]; [|done].
  unfold try_except, bind at 1, decode_path at 1.
  destruct (convert_from_path W pdf_path _) as [images|e] eqn:Hdec.
  - destruct (save_pages W _ _ _ _ _ _) as [[r'|e] st2] eqn:Hrun.
    + intros [= <- <-]. right. exists images. split; [done|].
      apply save_pages_returned in Hrun as [-> Ha]. split; [done|].
      intros k im Hk. by apply (Ha k im).
    + unfold bind, print, ret. intros [= <- <-]. by left.
  - unfold bind, print, ret. intros [= <- <-]. by left.
Qed.



End MorePages.

(** X1 at work: the buffer of [doc.pdf] as TIFF files. *)
Lemma convert_pdf_bytes_to_images_pages_witness :
  ∃ st',
    convert_pdf_bytes_to_images Demo.world "doc.pdf" "out" 150 "Tiff"
      Demo.fresh
    = (Returns ["out/page_1.tiff"; "out/page_2.tiff"; "out/page_3.tiff"], st')
    ∧ files st' !! "out/page_3.tiff" = Some (ImageFile Demo.page_c "TIFF").
Proof.
  destruct (convert_pdf_bytes_to_images_pages Demo.world "doc.pdf" "out" 150
              "Tiff" [Demo.page_a; Demo.page_b; Demo.page_c] Demo.fresh)
    as (st' & Hrun & Ha & _);
    [reflexivity | reflexivity | intros; reflexivity |].
  exists st'. split; [exact Hrun|]. exact (Ha 2%nat Demo.page_c eq_refl).
Defined.

(** X2 at work: a run that returned three paths. *)
Lemma convert_pdf_to_images_all_or_nothing_witness :
  ["out/page_1.png"; "out/page_2.png"; "out/page_3.png"] = []
  ∨ ∃ images,
      convert_from_path Demo.world "doc.pdf" {[ "dpi" := PyInt 300 ]}
        = Returns images
      ∧ ["out/page_1.png"; "out/page_2.png"; "out/page_3.png"]
        = map (page_path "out" "png") (seq 1 (length images))
      ∧ (∀ k im, images !! k = Some im →
           files (snd (convert_pdf_to_images Demo.world "doc.pdf" "out" 300
                         "png" Demo.fresh))
             !! page_path "out" "png" (S k)
           = Some (ImageFile im (upper "png"))).
Proof.
  apply (convert_pdf_to_images_all_or_nothing Demo.world "doc.pdf" "out" 300
           "png" Demo.fresh).
  reflexivity.
Defined.


(** ** Custom settings *)

Section Custom.
Context (W : World).

Lemma save_pages_as_touches out output_format images st r st' :
  save_pages_as W out output_format images st = (r, st') →
  dirs st' = dirs st ∧ decoded st' = decoded st.
Proof.
  unfold save_pages_as. destruct images as [|im rest].
  - unfold ret. by intros [= <- <-].
  - destruct output_format; try (unfold raise; by intros [= <- <-]).
    intros Hrun. by apply save_pages_touches in Hrun as (Hd & Hc & _).
Qed.

(** What the caller gave for [format], or the default. *)
Lemma custom_format_lookup (kwargs : gmap string PyVal) :
  default PyNone ((kwargs ∪ default_settings) !! "format")
  = default (PyStr "PNG") (kwargs !! "format").
Proof.
  destruct (kwargs !! "format") as [v|] eqn:E.
  - by rewrite (lookup_union_Some_l _ _ _ _ E).
  - by rewrite lookup_union_r.
Qed.

(** X5. With a directory that could be made, [convert_with_custom_settings]
    never raises and calls the decoder once; the settings it passes have
    no [format], carry every other entry of the caller unchanged, known or
    not, and take the defaults (dpi 200, one thread, no crop box, not
    strict) for what the caller left out. *)
Theorem custom_settings_forwarded (pdf_path output_dir : string)
    (kwargs : gmap string PyVal) (st : State) :
  makedirs_error W st output_dir = None →
  ∃ r st' settings,
    convert_with_custom_settings W pdf_path output_dir kwargs st
      = (Returns r, st')
    ∧ decoded st' = decoded st ++ [(pdf_path, settings)]
    ∧ settings !! "format" = None
    ∧ (∀ k v, k ≠ "format" → kwargs !! k = Some v → settings !! k = Some v)
    ∧ (∀ k, k ≠ "format" → kwargs !! k = None →
         settings !! k
         = ({[ "dpi" := PyInt 200; "thread_count" := PyInt 1;
               "use_cropbox" := PyBool false; "strict" := PyBool false ]}
              : gmap string PyVal) !! k).
Proof.
  intros Hmk.
  assert (∃ r st',
            convert_with_custom_settings W pdf_path output_dir kwargs st
              = (Returns r, st')
            ∧ decoded st'
              = decoded st
                ++ [(pdf_path, delete "format" (kwargs ∪ default_settings))])
    as (r & st' & Hrun & Hdec).
  { unfold convert_with_custom_settings, bind at 1, os_makedirs at 1.
    rewrite Hmk. unfold try_except, bind at 1, decode_path at 1.
    destruct (convert_from_path W pdf_path _) as [images|e].
    - destruct (save_pages_as W _ _ _ _) as [[r|e] st2] eqn:E;
        apply save_pages_as_touches in E as [_ Hc];
        eexists _, _; (split; [reflexivity|]); simpl; by rewrite Hc.
    - eexists _, _. split; [reflexivity|]. done. }
  exists r, st', (delete "format" (kwargs ∪ default_settings)).
  split; [done|]. split; [done|]. split; [apply lookup_delete_eq|]. split.
  - intros k v Hk Hv. rewrite lookup_delete_ne by done.
    by apply lookup_union_Some_l.
  - intros k Hk Hv. rewrite lookup_delete_ne by done.
    rewrite lookup_union_r by done. unfold default_settings.
    rewrite !lookup_insert. repeat case_decide; subst; done.
Qed.

(** X6. With the format the caller gave as a string, or PNG when the
    caller gave none, [convert_with_custom_settings] saves the N pages the
    decoder returned as [page_1.ext] .. [page_N.ext], in page order. *)
Theorem custom_settings_pages (pdf_path output_dir : string)
    (kwargs : gmap string PyVal) (format : string) (images : list Image)
    (st : State) :
  default (PyStr "PNG") (kwargs !! "format") = PyStr format →
  makedirs_error W st output_dir = None →
  convert_from_path W pdf_path (delete "format" (kwargs ∪ default_settings))
    = Returns images →
  (∀ st' im p, output_dir ∈ dirs st' →
     save_error W st' im p (upper format) = None) →
  ∃ st',
    convert_with_custom_settings W pdf_path output_dir kwargs st
      = (Returns
           (map (λ n : nat,
                   os_path_join output_dir
                     ("page_" +:+ pretty n +:+ "." +:+ lower format))
                (seq 1 (length images))),
         st')
    ∧ (∀ k im, images !! k = Some im →
         files st' !! page_path output_dir format (S k)
           = Some (ImageFile im (upper format))).
Proof.
  intros Hfmt Hmk Hdec Hsave.
  unfold convert_with_custom_settings, bind at 1, os_makedirs at 1.
  rewrite Hmk, custom_format_lookup, Hfmt.
  set (st1 := with_dirs _ st).
  set (st2 := with_decoded
                (decoded st1
                 ++ [(pdf_path, delete "format" (kwargs ∪ default_settings))])
                st1).
  destruct (save_pages_ok W output_dir format images Hsave 0%nat [] st2)
    as (st' & Hrun & _ & _ & Ha & _); [simpl; set_solver|].
  destruct images as [|im rest].
  - exists st2. split; [|intros k im Hk; by rewrite lookup_nil in Hk].
    apply try_returns. unfold bind, decode_path. by rewrite Hdec.
  - exists st'. split; [|intros k im' Hk; by apply (Ha k im')].
    apply try_returns. unfold bind, decode_path. rewrite Hdec. exact Hrun.
Qed.

(** X7. A [format] that is not a string makes
    [convert_with_custom_settings] return the empty list without writing,
    whatever the decoder returns. *)
Theorem custom_settings_bad_format (pdf_path output_dir : string)
    (kwargs : gmap string PyVal) (v : PyVal) (st : State) :
  kwargs !! "format" = Some v →
  (∀ format, v ≠ PyStr format) →
  makedirs_error W st output_dir = None →
  ∃ st',
    convert_with_custom_settings W pdf_path output_dir kwargs st
      = (Returns [], st')
    ∧ files st' = files st.
Proof.
  intros Hv Hbad Hmk.
  unfold convert_with_custom_settings, bind at 1, os_makedirs at 1.
  rewrite Hmk, custom_format_lookup, Hv. simpl.
  unfold try_except, bind at 1, decode_path at 1.
  destruct (convert_from_path W pdf_path _) as [[|im rest]|e].
  - by eexists.
  - unfold save_pages_as.
    destruct v; try (by eexists). by destruct (Hbad s).
  - by eexists.
Qed.

End Custom.

(** X5 at work: a caller that sets the resolution, a password and a format. *)
Lemma custom_settings_forwarded_witness :
  ∃ r st' settings,
    convert_with_custom_settings Demo.world "doc.pdf" "out"
      {[ "dpi" := PyInt 150; "userpw" := PyStr "secret";
         "format" := PyStr "JPEG" ]} Demo.fresh
    = (Returns r, st')
    ∧ decoded st' = [("doc.pdf", settings)]
    ∧ settings !! "format" = None
    ∧ settings !! "dpi" = Some (PyInt 150)
    ∧ settings !! "userpw" = Some (PyStr "secret")
    ∧ settings !! "thread_count" = Some (PyInt 1).
Proof.
  destruct (custom_settings_forwarded Demo.world "doc.pdf" "out"
              {[ "dpi" := PyInt 150; "userpw" := PyStr "secret";
                 "format" := PyStr "JPEG" ]} Demo.fresh eq_refl)
    as (r & st' & settings & Hrun & Hdec & Hfmt & Hgiven & Hdefault).
  exists r, st', settings.
  split; [exact Hrun|]. split; [exact Hdec|]. split; [exact Hfmt|].
  split; [by apply Hgiven|]. split; [by apply Hgiven|].
  by rewrite Hdefault.
Defined.

(** X6 at work: JPEG files at 150 dpi. *)
Lemma custom_settings_pages_witness :
  ∃ st',
    convert_with_custom_settings Demo.world "doc.pdf" "out"
      {[ "dpi" := PyInt 150; "format" := PyStr "Jpeg" ]} Demo.fresh
    = (Returns ["out/page_1.jpeg"; "out/page_2.jpeg"; "out/page_3.jpeg"], st')
    ∧ files st' !! "out/page_1.jpeg" = Some (ImageFile Demo.page_a "JPEG").
Proof.
  destruct (custom_settings_pages Demo.world "doc.pdf" "out"
              {[ "dpi" := PyInt 150; "format" := PyStr "Jpeg" ]} "Jpeg"
              [Demo.page_a; Demo.page_b; Demo.page_c] Demo.fresh)
    as (st' & Hrun & Ha);
    [reflexivity | reflexivity | reflexivity | intros; reflexivity |].
  exists st'. split; [exact Hrun|]. exact (Ha 0%nat Demo.page_a eq_refl).
Defined.

(** X7 at work: [format=None]. *)
Lemma custom_settings_bad_format_witness :
  ∃ st',
    convert_with_custom_settings Demo.world "doc.pdf" "out"
      {[ "format" := PyNone ]} Demo.fresh
    = (Returns [], st')
    ∧ files st' = files Demo.fresh.
Proof.
  exact (custom_settings_bad_format Demo.world "doc.pdf" "out"
           {[ "format" := PyNone ]} PyNone Demo.fresh eq_refl
           (λ format H, eq_ind PyNone
              (λ v, match v with PyNone => True | _ => False end) I _ H)
           eq_refl).
Defined.

(** ** The document record *)

Section Info.
Context (W : World).

(** X8. On a PDF with at least one page whose size can be read,
    [get_pdf_info] returns a record of exactly five fields: the number of
    pages, the size divided by 2^20, the last component of the path, and
    the pixel size and mode of the first page. *)
Theorem get_pdf_info_first_page (pdf_path : string) (first_page : Image)
    (others : list Image) (size : Z) (st : State) :
  convert_from_path W pdf_path {[ "dpi" := PyInt 50 ]}
    = Returns (first_page :: others) →
  os_path_getsize W pdf_path = Returns size →
  ∃ st' info,
    get_pdf_info W pdf_path st = (Returns info, st')
    ∧ info !! "page_count" = Some (PyInt (1 + Z.of_nat (length others)))
    ∧ info !! "file_size_mb" = Some (PyFloat (Qmake size 1048576))
    ∧ info !! "filename" = Some (PyStr (os_path_basename pdf_path))
    ∧ info !! "page_dimensions"
      = Some (PyPair (fst (img_size first_page)) (snd (img_size first_page)))
    ∧ info !! "page_mode" = Some (PyStr (img_mode first_page))
    ∧ dom info = {[ "page_count"; "file_size_mb"; "filename";
                    "page_dimensions"; "page_mode" ]}.
Proof.
  intros Hdec Hsize. unfold get_pdf_info.
  eexists _, _. split.
  { apply try_returns. unfold bind, decode_path, lift.
    rewrite Hdec, Hsize. reflexivity. }
  split.
  { rewrite lookup_insert_ne, lookup_insert_ne, lookup_insert_eq by done.
    do 2 f_equal. simpl length. lia. }
  repeat split; reflexivity.
Qed.

(** X9. [get_pdf_info] never raises, changes no file and no directory, and
    calls the decoder exactly once, at 50 dpi; when the size of the source
    cannot be read the record is empty even though the pages decoded. *)
Theorem get_pdf_info_reads_only (pdf_path : string) (st : State) :
  ∃ info st',
    get_pdf_info W pdf_path st = (Returns info, st')
    ∧ files st' = files st
    ∧ dirs st' = dirs st
    ∧ decoded st' = decoded st ++ [(pdf_path, {[ "dpi" := PyInt 50 ]})]
    ∧ ((∃ e, os_path_getsize W pdf_path = Raises e) → info = ∅).
Proof.
  unfold get_pdf_info, try_except, bind at 1, decode_path at 1.
  destruct (convert_from_path W pdf_path _) as [images|e].
  - unfold bind at 1, lift at 1.
    destruct (os_path_getsize W pdf_path) as [size|e].
    + destruct images as [|im rest]; eexists _, _;
        (split; [reflexivity|]); repeat split; intros [e He]; done.
    + eexists _, _. split; [reflexivity|]. by repeat split.
  - eexists _, _. split; [reflexivity|]. by repeat split.
Qed.

End Info.

(** X8 at work: the three pages of [doc.pdf]. *)
Lemma get_pdf_info_first_page_witness :
  ∃ st' info,
    get_pdf_info Demo.world "doc.pdf" Demo.fresh = (Returns info, st')
    ∧ info !! "page_count" = Some (PyInt 3)
    ∧ info !! "page_dimensions" = Some (PyPair 2 2)
    ∧ info !! "page_mode" = Some (PyStr "L").
Proof.
  destruct (get_pdf_info_first_page Demo.world "doc.pdf" Demo.page_a
              [Demo.page_b; Demo.page_c] 524288 Demo.fresh eq_refl eq_refl)
    as (st' & info & Hrun & Hcount & _ & _ & Hdim & Hmode & _).
  exists st', info. by repeat split.
Defined.

(** ** Requests that reach past the decoded range *)

Lemma py_getitem_past_the_end {A : Type} (l : list A) (k : Z) :
  Z.of_nat (length l) ≤ k → py_getitem l k = Raises IndexError.
Proof.
  intros Hk. unfold py_getitem.
  destruct (k <? 0) eqn:E; [lia|]. rewrite E.
  by rewrite lookup_ge_None_2 by lia.
Qed.

Section PastTheEnd.
Context (W : World).

(** The loop over a list in two parts is the loop over the first part
    followed by the loop over the second. *)
Lemma save_requested_app pages out fmt images t1 t2 :
  ∀ i acc st,
    save_requested W pages out fmt images i (t1 ++ t2) acc st
    = match save_requested W pages out fmt images i t1 acc st with
      | (Returns acc', st') =>
          save_requested W pages out fmt images (i + length t1) t2 acc' st'
      | (Raises e, st') => (Raises e, st')
      end.
Proof.
  induction t1 as [|n t1 IH]; intros i acc st; simpl.
  - unfold ret. by rewrite Nat.add_0_r.
  - replace (i + S (length t1))%nat with (S i + length t1)%nat by lia.
    case_bool_decide; [|apply IH]. unfold bind.
    destruct (lift (py_min pages) st) as [[lo|e] st1]; [|done].
    destruct (lift (py_getitem images (n - lo)) st1) as [[im|e] st2];
      [|done].
    destruct (image_save W im _ _ st2) as [[[]|e] st3]; [|done].
    destruct (print _ st3) as [[[]|e] st4]; [|done]. apply IH.
Qed.

(** Past the number of images the loop does nothing. *)
Lemma save_requested_skips pages out fmt images todo :
  ∀ i acc st,
    (length images ≤ i)%nat →
    save_requested W pages out fmt images i todo acc st = (Returns acc, st).
Proof.
  induction todo as [|n todo IH]; intros i acc st Hi; simpl; [done|].
  rewrite bool_decide_false by lia. apply IH. lia.
Qed.

(** X10. When the decoder returned fewer images than pages were asked for
    and the first pages of the sorted request, as many as there are
    images, all lie within them, [convert_specific_pages] saves exactly
    those and passes over the rest without an error. *)
Theorem convert_specific_pages_clipped (pdf_path : string) (pages : list Z)
    (output_dir : string) (dpi : Z) (format : string) (lo hi : Z)
    (images : list Image) (served skipped : list Z) (st : State) :
  NoDup pages →
  py_min pages = Returns lo →
  py_max pages = Returns hi →
  makedirs_error W st output_dir = None →
  convert_from_path W pdf_path (page_range_kwargs dpi lo hi)
    = Returns images →
  sorted pages = served ++ skipped →
  length served = length images →
  Forall (λ n, n - lo < Z.of_nat (length images)) served →
  (∀ st' im p, output_dir ∈ dirs st' →
     save_error W st' im p (upper format) = None) →
  ∃ st',
    convert_specific_pages W pdf_path pages output_dir dpi format st
      = (Returns (map (page_path output_dir format) served), st')
    ∧ (∀ n, n ∈ served →
         ∃ im, images !! Z.to_nat (n - lo) = Some im
               ∧ files st' !! page_path output_dir format n
                 = Some (ImageFile im (upper format)))
    ∧ (∀ n, n ∈ skipped →
         files st' !! page_path output_dir format n
         = files st !! page_path output_dir format n).
Proof.
  intros Hnd Hmin Hmax Hmk Hdec Hsplit Hlen Hall Hsave.
  assert (sorted pages ≡ₚ pages) as Hperm by apply merge_sort_Permutation.
  assert (NoDup (served ++ skipped)) as Hnd' by (by rewrite <- Hsplit, Hperm).
  apply NoDup_app in Hnd' as (Hnd1 & Hdisj & _).
  pose proof Hmin as Hlo. apply py_min_spec in Hlo as [_ Hlo].
  rewrite Forall_forall in Hlo.
  unfold convert_specific_pages, bind at 1, os_makedirs at 1. rewrite Hmk.
  set (st1 := with_dirs _ st).
  set (st2 := with_decoded
                (decoded st1 ++ [(pdf_path, page_range_kwargs dpi lo hi)])
                st1).
  destruct (save_requested_ok W pages output_dir format images lo Hmin Hsave
              served 0%nat [] st2) as (st' & Hrun & _ & Ha & Hb).
  { simpl. set_solver. }
  { done. }
  { rewrite Forall_forall in Hall |- *. intros n Hn.
    split; [|by apply Hall]. apply Hlo. rewrite <- Hperm, Hsplit.
    apply elem_of_app. by left. }
  { simpl. lia. }
  exists st'. split; [|split; [exact Ha|]].
  - apply try_returns. unfold bind, lift, decode_path.
    rewrite Hmin, Hmax, Hdec, Hsplit. fold st1 st2.
    rewrite save_requested_app, Hrun. simpl.
    apply save_requested_skips. lia.
  - intros n Hn. rewrite Hb; [done|].
    intros Hin. apply list_elem_of_fmap in Hin as (m & Heq & Hm).
    apply page_path_inj in Heq. subst m. by apply (Hdisj n).
Qed.

(** X11. When a page of the sorted request lies past the images the
    decoder returned, at a position the test [i < len(images)] lets
    through, [convert_specific_pages] returns the empty list, logs the
    index error, and leaves the pages before it on disk. *)
Theorem convert_specific_pages_index_error (pdf_path : string)
    (pages : list Z) (output_dir : string) (dpi : Z) (format : string)
    (lo hi : Z) (images : list Image) (before : list Z) (n : Z)
    (after : list Z) (st : State) :
  NoDup pages →
  py_min pages = Returns lo →
  py_max pages = Returns hi →
  makedirs_error W st output_dir = None →
  convert_from_path W pdf_path (page_range_kwargs dpi lo hi)
    = Returns images →
  sorted pages = before ++ n :: after →
  (length before < length images)%nat →
  Forall (λ m, m - lo < Z.of_nat (length images)) before →
  Z.of_nat (length images) ≤ n - lo →
  (∀ st' im p, output_dir ∈ dirs st' →
     save_error W st' im p (upper format) = None) →
  ∃ st',
    convert_specific_pages W pdf_path pages output_dir dpi format st
      = (Returns [], st')
    ∧ (∀ m, m ∈ before →
         ∃ im, images !! Z.to_nat (m - lo) = Some im
               ∧ files st' !! page_path output_dir format m
                 = Some (ImageFile im (upper format)))
    ∧ last (stdout st')
      = Some "Error converting specific pages: list index out of range".
Proof.
  intros Hnd Hmin Hmax Hmk Hdec Hsplit Hlen Hall Hpast Hsave.
  assert (sorted pages ≡ₚ pages) as Hperm by apply merge_sort_Permutation.
  assert (NoDup (before ++ n :: after)) as Hnd'
    by (by rewrite <- Hsplit, Hperm).
  apply NoDup_app in Hnd' as (Hnd1 & _ & _).
  pose proof Hmin as Hlo. apply py_min_spec in Hlo as [_ Hlo].
  rewrite Forall_forall in Hlo.
  unfold convert_specific_pages, bind at 1, os_makedirs at 1. rewrite Hmk.
  set (st1 := with_dirs _ st).
  set (st2 := with_decoded
                (decoded st1 ++ [(pdf_path, page_range_kwargs dpi lo hi)])
                st1).
  destruct (save_requested_ok W pages output_dir format images lo Hmin Hsave
              before 0%nat [] st2) as (st3 & Hrun & _ & Ha & _).
  { simpl. set_solver. }
  { done. }
  { rewrite Forall_forall in Hall |- *. intros m Hm.
    split; [|by apply Hall]. apply Hlo. rewrite <- Hperm, Hsplit.
    apply elem_of_app. by left. }
  { simpl. lia. }
  eexists. split; [|split].
  - erewrite try_raises; [reflexivity|].
    unfold bind at 1, lift at 1. rewrite Hmin.
    unfold bind at 1, lift at 1. rewrite Hmax.
    unfold bind at 1, decode_path at 1. rewrite Hdec, Hsplit. fold st1 st2.
    rewrite save_requested_app, Hrun. simpl.
    rewrite bool_decide_true by lia.
    unfold bind at 1, lift at 1. rewrite Hmin.
    unfold bind at 1, lift at 1.
    rewrite py_getitem_past_the_end by done. reflexivity.
  - simpl. exact Ha.
  - simpl. by rewrite last_snoc.
Qed.

End PastTheEnd.

(** X10 at work: pages 4, 2 and 3 of the three-page [doc.pdf]; the decoder
    clips the range to pages 2 and 3. *)
Lemma convert_specific_pages_clipped_witness :
  ∃ st',
    convert_specific_pages Demo.world "doc.pdf" [4; 2; 3] "out" 300 "PNG"
      Demo.fresh
    = (Returns ["out/page_2.png"; "out/page_3.png"], st')
    ∧ files st' !! "out/page_3.png" = Some (ImageFile Demo.page_c "PNG")
    ∧ files st' !! "out/page_4.png" = None.
Proof.
  destruct (convert_specific_pages_clipped Demo.world "doc.pdf" [4; 2; 3]
              "out" 300 "PNG" 2 4 [Demo.page_b; Demo.page_c] [2; 3] [4]
              Demo.fresh)
    as (st' & Hrun & Ha & Hb).
  - apply (NoDup_fmap_1 Z.to_nat). apply (bool_decide_unpack _).
    reflexivity.
  - reflexivity.
  - reflexivity.
  - reflexivity.
  - reflexivity.
  - reflexivity.
  - reflexivity.
  - by repeat constructor.
  - intros; reflexivity.
  - exists st'. split; [exact Hrun | split].
    + destruct (Ha 3) as (im & Him & Hfile);
        [apply elem_of_cons; right; apply elem_of_cons; by left|].
      injection Him as <-. exact Hfile.
    + apply (Hb 4). apply elem_of_cons. by left.
Defined.

(** X11 at work: pages 1 and 5 of the three-page [doc.pdf]. *)
Lemma convert_specific_pages_index_error_witness :
  ∃ st',
    convert_specific_pages Demo.world "doc.pdf" [5; 1] "out" 300 "PNG"
      Demo.fresh
    = (Returns [], st')
    ∧ files st' !! "out/page_1.png" = Some (ImageFile Demo.page_a "PNG").
Proof.
  destruct (convert_specific_pages_index_error Demo.world "doc.pdf" [5; 1]
              "out" 300 "PNG" 1 5 [Demo.page_a; Demo.page_b; Demo.page_c]
              [1] 5 [] Demo.fresh)
    as (st' & Hrun & Ha & _).
  - apply NoDup_cons. split;
      [by intros ?%list_elem_of_singleton | apply NoDup_singleton].
  - reflexivity.
  - reflexivity.
  - reflexivity.
  - reflexivity.
  - reflexivity.
  - simpl. lia.
  - by repeat constructor.
  - simpl. lia.
  - intros; reflexivity.
  - exists st'. split; [exact Hrun|].
    destruct (Ha 1) as (im & Him & Hfile); [apply elem_of_cons; by left|].
    injection Him as <-. exact Hfile.
Defined.

(** ** More on the OCR pipeline and the batch driver *)

Section MoreBatch.
Context (W : World).

Lemma ocr_pages_decoded images :
  ∀ i all_text st r st',
    ocr_pages W i images all_text st = (r, st') → decoded st' = decoded st.
Proof.
  induction images as [|im rest IH]; intros i all_text st r st'; simpl.
  - unfold ret. by intros [= <- <-].
  - unfold bind at 1, print at 1. unfold bind at 1, lift at 1.
    destruct (recognise W im) as [text|e]; [|by intros [= <- <-]].
    intros Hrun. by apply IH in Hrun.
Qed.

(** What the loop returns or raises does not depend on the state. *)
Lemma ocr_pages_outcome images :
  ∀ i all_text st st0,
    fst (ocr_pages W i images all_text st)
    = fst (ocr_pages W i images all_text st0).
Proof.
  induction images as [|im rest IH]; intros i all_text st st0; simpl.
  - done.
  - unfold bind, print, lift.
    destruct (recognise W im) as [text|e]; [apply IH | done].
Qed.

Lemma extract_outcome pdf_path st st0 :
  fst (extract_text_from_pdf W pdf_path st)
  = fst (extract_text_from_pdf W pdf_path st0).
Proof.
  unfold extract_text_from_pdf, try_except, bind, decode_path.
  destruct (convert_from_path W pdf_path ∅) as [images|e]; [|done].
  set (st1 := with_decoded _ st). set (st2 := with_decoded _ st0).
  pose proof (ocr_pages_outcome images 0%nat [] st1 st2) as Hsame.
  destruct (ocr_pages W 0 images [] st1) as [[a|e] st3];
    destruct (ocr_pages W 0 images [] st2) as [[a'|e'] st4];
    simpl in Hsame; try done.
  by injection Hsame as <-.
Qed.

(** [extract_text_from_pdf] calls the decoder once, with no settings. *)
Lemma extract_decoded pdf_path st r st' :
  extract_text_from_pdf W pdf_path st = (r, st') →
  decoded st' = decoded st ++ [(pdf_path, ∅)].
Proof.
  unfold extract_text_from_pdf, try_except, bind at 1, decode_path at 1.
  destruct (convert_from_path W pdf_path ∅) as [images|e];
    [|by intros [= <- <-]].
  unfold bind at 1.
  destruct (ocr_pages W _ _ _ _) as [[a|e] st1] eqn:E;
    apply ocr_pages_decoded in E; intros [= <- <-]; simpl; by rewrite E.
Qed.

(** One turn of the batch loop, whether the write goes through or not. *)
Lemma process_file_touches pdf_file st r st' :
  process_file W pdf_file st = (r, st') →
  dirs st' = dirs st
  ∧ decoded st' = decoded st ++ [(os_path_join files_dir pdf_file, ∅)]
  ∧ (∀ p, p ≠ output_path pdf_file → files st' !! p = files st !! p).
Proof.
  unfold process_file.
  unfold bind at 1, print at 1. unfold bind at 1, print at 1.
  set (st0 := with_stdout _ (with_stdout _ st)).
  destruct (extract_returns W (os_path_join files_dir pdf_file) st0)
    as (text & st1 & Hrun & Hf & Hd).
  pose proof (extract_decoded _ _ _ _ Hrun) as Hc.
  unfold bind at 1. rewrite Hrun. unfold bind, write_text, print.
  destruct (write_error W st1 _ _) as [e|]; intros [= <- <-]; simpl.
  - rewrite Hd, Hc, Hf. done.
  - rewrite Hd, Hc. split; [done|]. split; [done|].
    intros p Hp. by rewrite lookup_insert_ne, Hf.
Qed.

Lemma process_files_touches pdf_files :
  ∀ st r st',
    process_files W pdf_files st = (r, st') →
    dirs st' = dirs st
    ∧ (∀ p, (∀ f, f ∈ pdf_files → p ≠ output_path f) →
         files st' !! p = files st !! p).
Proof.
  induction pdf_files as [|f rest IH]; intros st r st'; simpl.
  - unfold ret. by intros [= <- <-].
  - unfold bind.
    destruct (process_file W f st) as [[[]|e] st1] eqn:E;
      apply process_file_touches in E as (Hd & _ & Hf).
    + intros Hrun. apply IH in Hrun as [Hd' Hf'].
      split; [by rewrite Hd', Hd|]. intros p Hp.
      rewrite Hf', Hf; [done | apply Hp; by left |].
      intros g Hg. apply Hp. by right.
    + intros [= <- <-]. split; [done|]. intros p Hp. apply Hf, Hp. by left.
Qed.

Lemma process_files_decoded pdf_files :
  ∀ st st',
    process_files W pdf_files st = (Returns tt, st') →
    decoded st'
    = decoded st ++ map (λ f, (os_path_join files_dir f, ∅)) pdf_files.
Proof.
  induction pdf_files as [|f rest IH]; intros st st'; simpl.
  - unfold ret. intros [= <-]. by rewrite app_nil_r.
  - unfold bind.
    destruct (process_file W f st) as [[[]|e] st1] eqn:E; [|done].
    apply process_file_touches in E as (_ & Hc & _).
    intros Hrun. apply IH in Hrun. by rewrite Hrun, Hc, <- app_assoc.
Qed.

Lemma process_files_app l1 l2 st :
  process_files W (l1 ++ l2) st
  = (process_files W l1 ;;; process_files W l2) st.
Proof.
  revert st. induction l1 as [|f l1 IH]; intros st; simpl; [done|].
  unfold bind.
  destruct (process_file W f st) as [[[]|e] st1]; [|done].
  rewrite IH. done.
Qed.

(** X12. With no input directory, or with no [.pdf] among the names it
    lists, the batch driver prints one line and returns; it calls no
    decoder and writes nothing. Without the directory it does not list
    it. *)
Theorem main_nothing_to_do (st : State) :
  os_path_exists W files_dir = false
  ∨ (∃ names, os_listdir W files_dir = Returns names
              ∧ Forall (λ f, is_pdf f = false) names) →
  ∃ line,
    main W st = (Returns tt, with_stdout (stdout st ++ [line]) st)
    ∧ (line = "Directory 'files' not found!"
       ∨ line = "No PDF files found in the directory!").
Proof.
  intros Hcase. unfold main.
  destruct (os_path_exists W files_dir) eqn:Hex; simpl.
  - destruct Hcase as [|(names & Hls & Hnone)]; [done|].
    unfold bind, lift. rewrite Hls.
    assert (filter (λ f, is_pdf f = true) names = []) as ->.
    { clear Hls. induction Hnone as [|f names Hf _ IH]; [done|].
      rewrite filter_cons_False; [exact IH | by rewrite Hf]. }
    eexists. split; [reflexivity | by right].
  - eexists. split; [reflexivity | by left].
Qed.

(** X13. With the writes going through, the batch driver calls the decoder
    exactly once for every listed name that ends in [.pdf], in the order
    of the listing and with no settings, and for no other name. *)
Theorem main_decodes_each_pdf_once (names : list string) (st : State) :
  os_path_exists W files_dir = true →
  os_listdir W files_dir = Returns names →
  (∀ st1 p text, dirs st1 = dirs st → write_error W st1 p text = None) →
  ∃ st',
    main W st = (Returns tt, st')
    ∧ decoded st'
      = decoded st
        ++ map (λ f, (os_path_join files_dir f, ∅))
             (filter (λ f, is_pdf f = true) names).
Proof.
  intros Hex Hls Hw. unfold main. rewrite Hex. simpl.
  unfold bind at 1, lift at 1. rewrite Hls.
  destruct (process_files_returns W (filter (λ f, is_pdf f = true) names)
              st Hw) as (st' & Hrun & _).
  pose proof (process_files_decoded _ _ _ Hrun) as Hc.
  destruct (filter _ names) as [|f rest].
  - eexists. split; [reflexivity|]. simpl. by rewrite app_nil_r.
  - unfold bind. rewrite Hrun. eexists. split; [reflexivity|]. done.
Qed.

(** X14. Whether it returns or raises, the batch driver makes and removes
    no directory, and changes no file but the output files of the names
    that end in [.pdf]. *)
Theorem main_writes_outputs_only (st : State) (r : Outcome unit)
    (st' : State) :
  main W st = (r, st') →
  dirs st' = dirs st
  ∧ (∀ p, (∀ f, is_pdf f = true → p ≠ output_path f) →
       files st' !! p = files st !! p).
Proof.
  unfold main. destruct (os_path_exists W files_dir); simpl.
  - unfold bind at 1, lift at 1.
    destruct (os_listdir W files_dir) as [names|e];
      [|by intros [= <- <-]].
    destruct (filter _ names) as [|f rest] eqn:E; [by intros [= <- <-]|].
    unfold bind.
    destruct (process_files W (f :: rest) st) as [[[]|e] st1] eqn:Hrun;
      apply process_files_touches in Hrun as [Hd Hf];
      intros [= <- <-]; simpl; (split; [done|]); intros p Hp; apply Hf;
      intros g Hg; apply Hp; rewrite <- E in Hg;
      by apply list_elem_of_filter in Hg as [Hg _].
  - by intros [= <- <-].
Qed.

(** X15. When several listed PDFs share an output name, the output file
    ends with the text of the one listed last; what the file held before
    the run is overwritten. *)
Theorem main_last_listed_wins (names before : list string) (f : string)
    (after : list string) (text : string) (st : State) :
  os_path_exists W files_dir = true →
  os_listdir W files_dir = Returns names →
  filter (λ g, is_pdf g = true) names = before ++ f :: after →
  (∀ g, g ∈ after → output_path g ≠ output_path f) →
  fst (extract_text_from_pdf W (os_path_join files_dir f) st)
    = Returns text →
  (∀ st1 p t, dirs st1 = dirs st → write_error W st1 p t = None) →
  ∃ st',
    main W st = (Returns tt, st')
    ∧ files st' !! output_path f = Some (TextFile text).
Proof.
  intros Hex Hls Hsplit Hafter Htext Hw.
  unfold main. rewrite Hex. simpl. unfold bind at 1, lift at 1.
  rewrite Hls, Hsplit.
  destruct (process_files_returns W before st Hw) as (st1 & Hrun1 & Hd1).
  destruct (process_files_output W f text (f :: after)) with (st := st1)
    as (st' & Hrun2 & Hkeep).
  - intros st0. by rewrite (extract_outcome _ st0 st).
  - intros g Hg Heq. apply elem_of_cons in Hg as [->|Hg]; [done|].
    by destruct (Hafter g Hg).
  - intros st2 p t Hd2. apply Hw. by rewrite Hd2.
  - assert (process_files W (before ++ f :: after) st = (Returns tt, st'))
      as Hrun.
    { rewrite process_files_app. unfold bind. by rewrite Hrun1. }
    destruct (before ++ f :: after) as [|g l] eqn:E; [by destruct before|].
    unfold bind. rewrite Hrun. eexists. split; [reflexivity|].
    simpl. apply Hkeep. left. by left.
Qed.

(** The loop prints one line a page up to the first page that fails, and
    raises the error of that page. *)
Lemma ocr_pages_stops good texts bad rest e :
  Forall2 (λ im text, recognise W im = Returns text) good texts →
  recognise W bad = Raises e →
  ∀ i all_text st,
    ocr_pages W i (good ++ bad :: rest) all_text st
    = (Raises e,
       with_stdout
         (stdout st
          ++ map (λ k : nat, "Processing page " +:+ pretty k +:+ "...")
               (seq (S i) (S (length good))))
         st).
Proof.
  intros Hgood Hbad.
  induction Hgood as [|im text good texts Him _ IH]; intros i all_text st.
  - simpl. unfold bind at 1, print at 1. unfold bind at 1, lift at 1.
    rewrite Hbad, Nat.add_1_r. done.
  - simpl. unfold bind at 1, print at 1. unfold bind at 1, lift at 1.
    rewrite Him, IH, Nat.add_1_r. simpl. by rewrite <- app_assoc.
Qed.

(** X16. When a page fails, [extract_text_from_pdf] prints
    [Processing page k...] for the pages up to and including the first
    failing one, none for the pages after it, and then the message of that
    page's error. *)
Theorem extract_text_logs_first_failure (pdf_path : string)
    (good : list Image) (texts : list string) (bad : Image)
    (rest : list Image) (e : Exn) (st : State) :
  convert_from_path W pdf_path ∅ = Returns (good ++ bad :: rest) →
  Forall2 (λ im text, recognise W im = Returns text) good texts →
  recognise W bad = Raises e →
  ∃ st',
    extract_text_from_pdf W pdf_path st = (Returns "", st')
    ∧ stdout st'
      = stdout st
        ++ map (λ k : nat, "Processing page " +:+ pretty k +:+ "...")
             (seq 1 (S (length good)))
        ++ ["Error: " +:+ exn_msg e].
Proof.
  intros Hdec Hgood Hbad. unfold extract_text_from_pdf.
  eexists. split.
  - erewrite try_raises; [reflexivity|].
    unfold bind at 1, decode_path at 1. rewrite Hdec.
    unfold bind at 1.
    by rewrite (ocr_pages_stops good texts bad rest e Hgood Hbad).
  - simpl. by rewrite <- app_assoc.
Qed.

End MoreBatch.

(** X12 at work: no [files] directory; listing it would raise, and it is
    not listed. *)
Lemma main_nothing_to_do_witness :
  os_listdir Picky.bare files_dir
    = Raises (mkExn "FileNotFoundError" "No such file or directory")
  ∧ ∃ line,
      main Picky.bare Demo.fresh
        = (Returns tt, with_stdout (stdout Demo.fresh ++ [line]) Demo.fresh)
      ∧ (line = "Directory 'files' not found!"
         ∨ line = "No PDF files found in the directory!").
Proof.
  split; [reflexivity|].
  apply (main_nothing_to_do Picky.bare Demo.fresh). by left.
Defined.

(** X13 at work: [a.pdf] and [torn.pdf] are decoded, [notes.txt] is not. *)
Lemma main_decodes_each_pdf_once_witness :
  ∃ st',
    main Demo.world Demo.ready = (Returns tt, st')
    ∧ decoded st' = [("files/a.pdf", ∅); ("files/torn.pdf", ∅)].
Proof.
  destruct (main_decodes_each_pdf_once Demo.world
              ["a.pdf"; "notes.txt"; "torn.pdf"] Demo.ready)
    as (st' & Hrun & Hdec).
  - reflexivity.
  - reflexivity.
  - intros st1 p text Hd. unfold write_error, Demo.world, Demo.open_check.
    rewrite Hd. reflexivity.
  - exists st'. split; [exact Hrun | exact Hdec].
Defined.

(** X14 at work: the run that aborts on a disk without [extracted_text]
    has made no directory. *)
Lemma main_writes_outputs_only_witness :
  dirs (snd (main Demo.world Demo.fresh)) = dirs Demo.fresh
  ∧ (∀ p, (∀ f, is_pdf f = true → p ≠ output_path f) →
       files (snd (main Demo.world Demo.fresh)) !! p
       = files Demo.fresh !! p).
Proof.
  apply (main_writes_outputs_only Demo.world Demo.fresh
           (fst (main Demo.world Demo.fresh))).
  apply surjective_pairing.
Defined.

(** X15 at work: [scan.PDF] is listed before [scan.pdf]; the output holds
    the two pages of [scan.pdf], not the page of [scan.PDF] and not what
    an earlier run left. *)
Lemma main_last_listed_wins_witness :
  files Picky.stale !! "extracted_text/scan_extracted.txt"
    = Some (TextFile "old")
  ∧ output_path "scan.PDF" = output_path "scan.pdf"
  ∧ ∃ st',
      main Picky.world Picky.stale = (Returns tt, st')
      ∧ files st' !! "extracted_text/scan_extracted.txt"
        = Some (TextFile ("Page 1:" +:+ nl +:+ "ink 2" +:+ nl +:+ nl
                          +:+ "Page 2:" +:+ nl +:+ "ink 1" +:+ nl +:+ nl)).
Proof.
  split; [reflexivity | split; [reflexivity|]].
  destruct (main_last_listed_wins Picky.world
              ["scan.PDF"; "readme.md"; "scan.pdf"] ["scan.PDF"] "scan.pdf" []
              ("Page 1:" +:+ nl +:+ "ink 2" +:+ nl +:+ nl
               +:+ "Page 2:" +:+ nl +:+ "ink 1" +:+ nl +:+ nl)
              Picky.stale)
    as (st' & Hrun & Hfile).
  - reflexivity.
  - reflexivity.
  - reflexivity.
  - intros g Hg. by apply elem_of_nil in Hg.
  - reflexivity.
  - intros st1 p t Hd. unfold write_error, Picky.world, Demo.open_check.
    rewrite Hd. reflexivity.
  - exists st'. split; [exact Hrun | exact Hfile].
Defined.

(** X16 at work: [files/torn.pdf] fails on page 2 of 3. *)
Lemma extract_text_logs_first_failure_witness :
  ∃ st',
    extract_text_from_pdf Demo.world "files/torn.pdf" Demo.fresh
      = (Returns "", st')
    ∧ stdout st'
      = ["Processing page 1..."; "Processing page 2...";
         "Error: Image too small to scale"].
Proof.
  apply (extract_text_logs_first_failure Demo.world "files/torn.pdf"
           [Demo.page_a] ["ink 2"] Demo.blank_page [Demo.page_c]
           (mkExn "TesseractError" "Image too small to scale") Demo.fresh).
  - reflexivity.
  - by repeat constructor.
  - reflexivity.
Defined.

(** ** Binarised pages *)

Lemma threshold_values (x : Z) : threshold x = 0 ∨ threshold x = 255.
Proof. unfold threshold. destruct (x <? 128); auto. Qed.

Lemma threshold_idemp (x : Z) : threshold (threshold x) = threshold x.
Proof. unfold threshold. by destruct (x <? 128). Qed.

(** X17. Whatever the grayscale conversion returns, the binarised page
    holds no value but 0 and 255, has the size and the pixel count of the
    grayscale page and the mode [1], and putting it through the threshold
    again changes nothing. *)
Theorem binarize_two_levels (W : World) (image bw : Image) :
  binarize W image = Returns bw →
  Forall (Forall (λ v, v = 0 ∨ v = 255)) (img_data bw)
  ∧ image_point threshold "1" bw = bw
  ∧ ∃ gray,
      image_convert W image "L" = Returns gray
      ∧ img_size bw = img_size gray
      ∧ length (img_data bw) = length (img_data gray).
Proof.
  unfold binarize.
  destruct (image_convert W image "L") as [gray|e]; [|done].
  intros [= <-]. split; [|split].
  - simpl. apply Forall_fmap, Forall_true. intros px.
    apply Forall_fmap, Forall_true. intros v. apply threshold_values.
  - unfold image_point. simpl. f_equal.
    rewrite <- list_fmap_compose. apply list_fmap_ext. intros _ px _.
    simpl. rewrite <- list_fmap_compose. apply list_fmap_ext.
    intros _ v _. apply threshold_idemp.
  - exists gray. split; [done|]. split; [done|]. simpl.
    by rewrite length_fmap.
Qed.

(** X17 at work: an RGB page. *)
Lemma binarize_two_levels_witness :
  Forall (Forall (λ v, v = 0 ∨ v = 255))
    [[255]; [0]]
  ∧ image_point threshold "1" (mkImage (2, 1) "1" [[255]; [0]])
    = mkImage (2, 1) "1" [[255]; [0]].
Proof.
  destruct (binarize_two_levels Demo.world
              (mkImage (2, 1) "RGB" [[250; 240; 230]; [30; 20; 10]])
              (mkImage (2, 1) "1" [[255]; [0]]) eq_refl)
    as (Hall & Hidem & _).
  split; [exact Hall | exact Hidem].
Defined.

(** ** The example script *)

Section Script.
Context (W : World).

(** Once the directory is made, [convert_pdf_to_images] returns. *)
Lemma convert_pdf_to_images_returns pdf_path output_dir dpi format st :
  makedirs_error W st output_dir = None →
  ∃ r st',
    convert_pdf_to_images W pdf_path output_dir dpi format st
      = (Returns r, st').
Proof.
  intros Hmk. unfold convert_pdf_to_images, bind at 1, os_makedirs at 1.
  rewrite Hmk. unfold try_except.
  destruct (bind _ _ _) as [[r|e] st1]; by eexists _, _.
Qed.

(** X18. The example script never raises. It reports a number of
    converted pages whenever the directory [pdf_images] could be made,
    also when the PDF could not be read; it prints the advice to install
    pdf2image and poppler exactly when making the directory failed, and
    then it has written nothing. *)
Theorem example_usage_never_raises (st : State) :
  ∃ st',
    example_usage W st = (Returns tt, st')
    ∧ (makedirs_error W
         (with_stdout (stdout st ++ ["Converting PDF to images..."]) st)
         "pdf_images" = None →
       ∃ n : nat,
         last (stdout st')
         = Some ("Converted " +:+ pretty n +:+ " pages to images"))
    ∧ (∀ e,
         makedirs_error W
           (with_stdout (stdout st ++ ["Converting PDF to images..."]) st)
           "pdf_images" = Some e →
         stdout st'
         = stdout st
           ++ ["Converting PDF to images...";
               "Error: " +:+ exn_msg e;
               "Make sure you have pdf2image installed: pip install pdf2image";
               "Also ensure poppler is installed on your system:"]
         ∧ files st' = files st ∧ dirs st' = dirs st).
Proof.
  unfold example_usage, try_except. unfold bind at 1, print at 1.
  set (st0 := with_stdout _ st).
  destruct (makedirs_error W st0 "pdf_images") as [e|] eqn:Hmk.
  - unfold bind at 1, convert_pdf_to_images, bind at 1, os_makedirs.
    rewrite Hmk. eexists. split; [reflexivity|]. split; [done|].
    intros e' [= <-]. simpl. rewrite <- !app_assoc. done.
  - destruct (convert_pdf_to_images_returns "files/1.pdf" "pdf_images" 300
                "PNG" st0 Hmk) as (r & st1 & Hrun).
    unfold bind at 1. rewrite Hrun. eexists. split; [reflexivity|].
    split; [|done]. intros _. exists (length r). simpl.
    by rewrite last_snoc.
Qed.

End Script.

(** X18 at work: [files/1.pdf] cannot be read in this world, and the
    script reports no page; on a disk where [pdf_images] is a file it
    prints the advice. *)
Lemma example_usage_never_raises_witness :
  (∃ st', example_usage Demo.world Demo.fresh = (Returns tt, st')
          ∧ last (stdout st') = Some "Converted 0 pages to images")
  ∧ (∃ st', example_usage Demo.world Demo.blocked = (Returns tt, st')
            ∧ last (stdout st')
              = Some "Also ensure poppler is installed on your system:").
Proof.
  split.
  - destruct (example_usage_never_raises Demo.world Demo.fresh)
      as (st' & Hrun & _).
    exists st'. split; [exact Hrun|].
    by injection Hrun as <-.
  - destruct (example_usage_never_raises Demo.world Demo.blocked)
      as (st' & Hrun & _ & Hfail).
    exists st'. split; [exact Hrun|].
    destruct (Hfail (mkExn "FileExistsError" "File exists") eq_refl)
      as (Hout & _).
    by rewrite Hout.
Defined.

(** ** File names *)

Lemma append_cons (c : ascii) (s t : string) :
  String c s +:+ t = String c (s +:+ t).
Proof. reflexivity. Qed.

Lemma append_nil_r (s : string) : s +:+ "" = s.
Proof.
  induction s as [|c s IH]; [done|]. by rewrite append_cons, IH.
Qed.

Lemma append_assoc (s t u : string) : (s +:+ t) +:+ u = s +:+ (t +:+ u).
Proof.
  induction s as [|c s IH]; [done|]. by rewrite !append_cons, IH.
Qed.

Lemma rev_app_append (s t : string) :
  String.rev_app s t = String.rev s +:+ t.
Proof.
  unfold String.rev. revert t.
  induction s as [|c s IH]; intros t; simpl; [done|].
  rewrite (IH (String c t)), (IH (String c "")), append_assoc. done.
Qed.

Lemma rev_append (s t : string) :
  String.rev (s +:+ t) = String.rev t +:+ String.rev s.
Proof.
  induction s as [|c s IH].
  - by rewrite append_nil_r.
  - rewrite append_cons. unfold String.rev at 1 3. simpl.
    rewrite !rev_app_append, IH, append_assoc. done.
Qed.

Lemma rev_rev (s : string) : String.rev (String.rev s) = s.
Proof.
  induction s as [|c s IH]; [done|].
  unfold String.rev at 2. simpl.
  rewrite rev_app_append, rev_append, IH. done.
Qed.

Lemma prefix_spec (p s : string) :
  String.prefix p s = true ↔ ∃ t, s = p +:+ t.
Proof.
  revert s. induction p as [|a p IH]; intros s.
  - destruct s; simpl; split; eauto.
  - destruct s as [|b s]; simpl.
    + split; [done | by intros [t Ht]].
    + destruct (ascii_dec a b) as [->|Hne].
      * rewrite IH. split; intros [t Ht]; exists t; [by rewrite Ht|].
        by injection Ht.
      * split; [done|]. intros [t Ht]. injection Ht as Hab _. by subst.
Qed.

Lemma endswith_spec (s p : string) :
  endswith s p = true ↔ ∃ t, s = t +:+ p.
Proof.
  unfold endswith. rewrite prefix_spec. split; intros [t Ht].
  - exists (String.rev t). rewrite <- (rev_rev s), Ht, rev_append, rev_rev.
    done.
  - exists (String.rev t). by rewrite Ht, rev_append.
Qed.

Lemma ascii_lower_upper (c : ascii) :
  ascii_lower (ascii_upper c) = ascii_lower c.
Proof. by destruct c as [[] [] [] [] [] [] [] []]. Qed.

Lemma ascii_lower_lower (c : ascii) :
  ascii_lower (ascii_lower c) = ascii_lower c.
Proof. by destruct c as [[] [] [] [] [] [] [] []]. Qed.

Lemma lower_upper (s : string) : lower (upper s) = lower s.
Proof.
  unfold lower, upper. induction s as [|c s IH]; simpl; [done|].
  f_equal; [apply ascii_lower_upper | exact IH].
Qed.

Lemma lower_lower (s : string) : lower (lower s) = lower s.
Proof.
  unfold lower. induction s as [|c s IH]; simpl; [done|].
  f_equal; [apply ascii_lower_lower | exact IH].
Qed.

Lemma lower_append (s t : string) : lower (s +:+ t) = lower s +:+ lower t.
Proof.
  unfold lower. induction s as [|c s IH]; [done|].
  rewrite append_cons. simpl. rewrite append_cons. f_equal. exact IH.
Qed.

Lemma lower_split (s a b : string) :
  lower s = a +:+ b → ∃ s1 s2, s = s1 +:+ s2 ∧ lower s1 = a ∧ lower s2 = b.
Proof.
  unfold lower. revert s. induction a as [|c a IH]; intros s Hs.
  - by exists "", s.
  - destruct s as [|d s]; [done|]. rewrite append_cons in Hs.
    simpl in Hs. injection Hs as Hc Hs.
    destruct (IH s Hs) as (s1 & s2 & -> & H1 & H2).
    exists (String d s1), s2. simpl. by rewrite Hc, H1.
Qed.

(** X19. The batch driver takes a listed name for a PDF exactly when the
    name ends in four characters that read [.pdf] once put in lower case;
    putting the whole name in upper or lower case does not change the
    answer. *)
Theorem is_pdf_suffix (f : string) :
  (is_pdf f = true ↔ ∃ stem ext, f = stem +:+ ext ∧ lower ext = ".pdf")
  ∧ is_pdf (upper f) = is_pdf f
  ∧ is_pdf (lower f) = is_pdf f.
Proof.
  unfold is_pdf. split; [|by rewrite lower_upper, lower_lower].
  rewrite endswith_spec. split.
  - intros [t Ht]. apply lower_split in Ht as (stem & ext & -> & _ & Hext).
    by exists stem, ext.
  - intros (stem & ext & -> & Hext). exists (lower stem).
    by rewrite lower_append, Hext.
Qed.

Lemma has_char_append (c : ascii) (s t : string) :
  has_char c (s +:+ t) = has_char c s || has_char c t.
Proof.
  induction s as [|a s IH]; [done|].
  rewrite append_cons. simpl. by rewrite IH, orb_assoc.
Qed.

Lemma rfind_go_absent (c : ascii) (s : string) :
  has_char c s = false → ∀ i found, rfind_go c s i found = found.
Proof.
  induction s as [|a s IH]; simpl; [done|]. intros Hs i found.
  apply orb_false_iff in Hs as [Ha Hs]. rewrite Ha. by apply IH.
Qed.

Lemma rfind_go_append (c : ascii) (s t : string) :
  ∀ i found,
    rfind_go c (s +:+ t) i found
    = rfind_go c t (i + Z.of_nat (String.length s)) (rfind_go c s i found).
Proof.
  induction s as [|a s IH]; intros i found.
  - simpl. by rewrite Z.add_0_r.
  - rewrite append_cons. simpl. rewrite IH. f_equal. lia.
Qed.

Lemma substring_all (s : string) : String.substring 0 (String.length s) s = s.
Proof. induction s as [|c s IH]; simpl; [done | by rewrite IH]. Qed.

Lemma substring_append (s t : string) :
  String.substring 0 (String.length s) (s +:+ t) = s.
Proof.
  induction s as [|c s IH]; [by destruct t|].
  rewrite append_cons. simpl. by rewrite IH.
Qed.

(** X20. For a listed name [stem.ext], with no [/] in it, no dot in [ext]
    and a [stem] that is not made of dots alone, the output file is
    [extracted_text/stem_extracted.txt]: only the last extension goes, and
    names that differ in the extension alone share their output. *)
Theorem output_path_strips_extension (stem ext : string) :
  has_char "/" stem = false →
  all_dots stem = false →
  has_char "." ext = false →
  has_char "/" ext = false →
  splitext_root (stem +:+ "." +:+ ext) = stem
  ∧ output_path (stem +:+ "." +:+ ext)
    = "extracted_text/" +:+ stem +:+ "_extracted.txt".
Proof.
  intros Hstem Hdots Hext Hsep.
  assert (splitext_root (stem +:+ "." +:+ ext) = stem) as Hroot.
  { unfold splitext_root, rfind.
    rewrite (rfind_go_absent "/") by (by rewrite !has_char_append, Hstem, Hsep).
    rewrite rfind_go_append. simpl rfind_go. change ("" +:+ ext) with ext.
    rewrite (rfind_go_absent "." ext Hext), Z.add_0_l.
    unfold str_take, str_drop. rewrite Nat2Z.id, substring_append.
    change (Z.to_nat (-1 + 1)) with 0%nat.
    rewrite Nat.sub_0_r, substring_all, Hdots.
    by destruct (Z.ltb_spec (-1) (Z.of_nat (String.length stem))); [|lia]. }
  split; [exact Hroot|]. unfold output_path. by rewrite Hroot.
Qed.

(** X20 at work: [scan.v2.PDF]. *)
Lemma output_path_strips_extension_witness :
  splitext_root "scan.v2.PDF" = "scan.v2"
  ∧ output_path "scan.v2.PDF" = "extracted_text/scan.v2_extracted.txt".
Proof.
  exact (output_path_strips_extension "scan.v2" "PDF"
           eq_refl eq_refl eq_refl eq_refl).
Defined.
